(** * A model of the video trimmer service (src/main.py)

    The service parses HH:MM:SS times, probes a video with an extraction
    tool, downloads it into a scoped temporary directory, trims it with a
    media tool into a per-process output directory, prunes that directory
    and returns the file.  The two external tools are black boxes: their
    answers are given by an environment record [Env]. *)

From stdpp Require Import base gmap strings list sorting.
From Stdlib Require Import ZArith Ascii String.

Open Scope Z_scope.

(* ------------------------------------------------------------------ *)
(** ** Python's [int(str)] and [str.split] *)

(** Characters are Latin-1 code points.  [int()] strips the characters
    that CPython treats as whitespace in this range: the ASCII ones
    (tab .. carriage return and space) and U+0085, U+00A0. *)
Definition is_py_space (c : ascii) : bool :=
  let n := nat_of_ascii c in
  ((9 <=? n)%nat && (n <=? 13)%nat) || (n =? 32)%nat || (n =? 133)%nat
  || (n =? 160)%nat.

Definition digit_val (c : ascii) : option Z :=
  let n := nat_of_ascii c in
  if ((48 <=? n)%nat && (n <=? 57)%nat) then Some (Z.of_nat n - 48)
  else None.

Fixpoint drop_spaces (l : list ascii) : list ascii :=
  match l with
  | c :: r => if is_py_space c then drop_spaces r else l
  | [] => []
  end.

Definition all_spaces (l : list ascii) : bool := forallb is_py_space l.

(** The digit run after the first digit: digits, each optionally preceded
    by one underscore, then only trailing whitespace.  Returns the value
    and the number of digits read so far. *)
Fixpoint digits_tail (acc : Z) (nd : nat) (l : list ascii) : option (Z * nat) :=
  match l with
  | [] => Some (acc, nd)
  | c :: r =>
      match digit_val c with
      | Some d => digits_tail (acc * 10 + d) (S nd) r
      | None =>
          if Ascii.eqb c "_" then
            match r with
            | c' :: r' =>
                match digit_val c' with
                | Some d => digits_tail (acc * 10 + d) (S nd) r'
                | None => None
                end
            | [] => None
            end
          else if all_spaces l then Some (acc, nd) else None
      end
  end.

Definition unsigned_digits (l : list ascii) : option (Z * nat) :=
  match l with
  | c :: r =>
      match digit_val c with
      | Some d => digits_tail d 1 r
      | None => None
      end
  | [] => None
  end.

(** CPython refuses decimal strings of more than 4300 digits
    ([sys.get_int_max_str_digits()] default). *)
Definition int_max_str_digits : nat := 4300.

Definition check_limit (r : option (Z * nat)) : option Z :=
  match r with
  | Some (v, nd) => if (nd <=? int_max_str_digits)%nat then Some v else None
  | None => None
  end.

(** [int(s)] in base 10: [None] is the [ValueError]. *)
Definition py_int (s : string) : option Z :=
  match drop_spaces (list_ascii_of_string s) with
  | c :: r =>
      if Ascii.eqb c "+" then check_limit (unsigned_digits r)
      else if Ascii.eqb c "-" then option_map Z.opp (check_limit (unsigned_digits r))
      else check_limit (unsigned_digits (c :: r))
  | [] => None
  end.

(** [s.split(':')]: every separator cuts, empty fields are kept. *)
Fixpoint split_on (sep : ascii) (l : list ascii) : list (list ascii) :=
  match l with
  | [] => [[]]
  | c :: r =>
      let parts := split_on sep r in
      if Ascii.eqb c sep then [] :: parts
      else match parts with
           | p :: ps => (c :: p) :: ps
           | [] => [[c]]
           end
  end.

Definition py_split (sep : ascii) (s : string) : list string :=
  map string_of_list_ascii (split_on sep (list_ascii_of_string s)).

(* ------------------------------------------------------------------ *)
(** ** Python exceptions and results *)

Inductive exn :=
  | ValueError
  | TypeError (msg : string)
  | AttributeError (msg : string)
  | Exception (msg : string)        (* [raise Exception(msg)] *)
  | ToolError (msg : string)        (* an error raised by yt-dlp *)
  | FfmpegError (stdout stderr : string)  (* [ffmpeg.Error] *)
  | OSError (msg : string)
  | HTTPException (status : Z) (detail : string).

Inductive res (A : Type) := Ok (a : A) | Raise (e : exn).
Arguments Ok {A} a.
Arguments Raise {A} e.

(** [str(e)]; ffmpeg-python's [Error] renders as a fixed sentence, its
    captured output lives in attributes. *)
Definition exn_str (e : exn) : string :=
  match e with
  | ValueError => "invalid literal for int()"
  | TypeError m | AttributeError m | Exception m | ToolError m | OSError m => m
  | FfmpegError _ _ => "ffmpeg error (see stderr output for detail)"
  | HTTPException _ d => d
  end.

(** [time_to_seconds]: [h, m, s = map(int, time_str.split(':'))]; both a
    field [int()] refuses and a field count other than three raise
    [ValueError]. *)
Definition time_to_seconds (time_str : string) : res Z :=
  match py_split ":" time_str with
  | [a; b; c] =>
      match py_int a, py_int b, py_int c with
      | Some h, Some m, Some s => Ok (h * 3600 + m * 60 + s)
      | _, _, _ => Raise ValueError
      end
  | _ => Raise ValueError
  end.

(* ------------------------------------------------------------------ *)
(** ** Python values of the tool's metadata dict *)

(** A Python float. A finite double is [m * 2 ^ e] for integers [m], [e];
    [repr] is the text [str()] gives for it (the shortest decimal that
    reads back as the same double). *)
Inductive pyfloat := FFinite (m e : Z) (repr : string) | FInf (neg : bool) | FNaN.

Inductive pyval := PyNone | PyInt (z : Z) | PyFloat (f : pyfloat) | PyStr (s : string).

(** [d.get(k, default)] *)
Definition dict_get (d : gmap string pyval) (k : string) (default : pyval) : pyval :=
  match d !! k with Some v => v | None => default end.

(** Decimal rendering of an integer, as [str()] and f-strings do. *)
Fixpoint pos_digits (fuel : nat) (p : positive) (acc : string) : string :=
  match fuel with
  | O => acc
  | S f =>
      let q := Z.pos p / 10 in
      let d := ascii_of_nat (Z.to_nat (Z.pos p mod 10) + 48) in
      match q with
      | Z.pos q' => pos_digits f q' (String d acc)
      | _ => String d acc
      end
  end.

Definition z_str (z : Z) : string :=
  match z with
  | Z0 => "0"
  | Z.pos p => pos_digits (Pos.size_nat p) p ""
  | Z.neg p => String "-" (pos_digits (Pos.size_nat p) p "")
  end.

Definition py_str (v : pyval) : string :=
  match v with
  | PyNone => "None"
  | PyInt z => z_str z
  | PyFloat (FFinite _ _ r) => r
  | PyFloat (FInf neg) => if neg then "-inf" else "inf"
  | PyFloat FNaN => "nan"
  | PyStr s => s
  end.

Definition py_type_name (v : pyval) : string :=
  match v with
  | PyNone => "NoneType" | PyInt _ => "int" | PyFloat _ => "float" | PyStr _ => "str"
  end.

(** [n > v] for an int [n]: against an int or a float the comparison is
    exact ([m * 2 ^ e < n]; false against nan); anything else raises. *)
Definition py_int_gt (n : Z) (v : pyval) : res bool :=
  match v with
  | PyInt d => Ok (d <? n)
  | PyFloat (FFinite m e _) =>
      Ok (if 0 <=? e then m * 2 ^ e <? n else m <? n * 2 ^ (- e))
  | PyFloat (FInf neg) => Ok neg
  | PyFloat FNaN => Ok false
  | _ => Raise (TypeError ("'>' not supported between instances of 'int' and '"
                           +:+ py_type_name v +:+ "'"))
  end.

(* ------------------------------------------------------------------ *)
(** ** Filesystem, external tools and the trace of tool invocations *)

(** A directory entry; [ctime] is what [os.path.getctime] reports. *)
Inductive node := NFile (ctime : Z) | NDir (ctime : Z).

Definition node_ctime (n : node) : Z := match n with NFile c | NDir c => c end.
Definition is_file (n : node) : bool := match n with NFile _ => true | NDir _ => false end.

(** A directory's listing, in [os.listdir] order. *)
Abbreviation listing := (list (string * node)).

(** The directories the service touches, by path. *)
Abbreviation fsys := (gmap string listing).

(** What [ydl.extract_info(url, download=False)] does: raise, or return
    a dict, or return [None] (yt-dlp does so under [ignoreerrors]). *)
Inductive probe_out := PRaise (msg : string) | PReturn (info : option (gmap string pyval)).

(** What [ydl.download([url])] does: raise, or return its status code
    after leaving the listed files in the output directory. *)
Inductive dl_out := DlRaise (msg : string) | DlDone (retcode : Z) (files : list string).

(** What running ffmpeg does: its exit code, whether it (re)wrote the
    output file, and its captured output. *)
Record ff_out := { ff_code : Z; ff_writes : bool; ff_stdout : string; ff_stderr : string }.

Record Env := {
  env_probe : string -> probe_out;              (* url *)
  env_download : string -> dl_out;              (* url *)
  env_ffmpeg : string -> Z -> Z -> string -> ff_out;  (* input, ss, t, output *)
  env_tmpname : string;     (* the directory [TemporaryDirectory()] makes *)
  env_gettempdir : string;  (* [tempfile.gettempdir()] *)
  env_stamp : string;       (* [datetime.now().strftime("%Y%m%d_%H%M%S")] *)
  env_clock : Z             (* ctime of files made during the request *)
}.

Inductive event :=
  | EvProbe (url : string)
  | EvDownload (url : string) (outtmpl : string)
  | EvFfmpeg (input : string) (ss t : Z) (output : string).

Record St := { st_fs : fsys; st_trace : list event }.

(* ------------------------------------------------------------------ *)
(** ** A state and exception monad *)

Definition M (A : Type) : Type := St -> res A * St.

Definition mret {A} (a : A) : M A := fun s => (Ok a, s).
Definition mraise {A} (e : exn) : M A := fun s => (Raise e, s).
Definition mbind {A B} (m : M A) (k : A -> M B) : M B :=
  fun s => match m s with
           | (Ok a, s') => k a s'
           | (Raise e, s') => (Raise e, s')
           end.
(** [try: m except: h(e)] *)
Definition mtry {A} (m : M A) (h : exn -> M A) : M A :=
  fun s => match m s with
           | (Ok a, s') => (Ok a, s')
           | (Raise e, s') => h e s'
           end.
Definition lift {A} (r : res A) : M A :=
  fun s => (r, s).
Definition emit (ev : event) : M unit :=
  fun s => (Ok tt, {| st_fs := st_fs s; st_trace := st_trace s ++ [ev] |}).
Definition modify_fs (f : fsys -> fsys) : M unit :=
  fun s => (Ok tt, {| st_fs := f (st_fs s); st_trace := st_trace s |}).
Definition get_fs : M fsys := fun s => (Ok (st_fs s), s).

Notation "'let*' x ':=' m 'in' k" := (mbind m (fun x => k))
  (at level 200, x binder, m at level 100, k at level 200).

(** [try: m finally: cleanup] *)
Definition mfinally {A} (m : M A) (cleanup : M unit) : M A :=
  fun s => match m s with
           | (r, s') =>
               match cleanup s' with
               | (Ok _, s'') => (r, s'')
               | (Raise e, s'') => (Raise e, s'')
               end
           end.

Fixpoint mfor {A} (xs : list A) (f : A -> M unit) : M unit :=
  match xs with
  | [] => mret tt
  | x :: r => let* _ := f x in mfor r f
  end.

(* ------------------------------------------------------------------ *)
(** ** os and os.path *)

(** [os.path.join(d, name)] for a relative [name]. *)
Definition path_join (d name : string) : string := d +:+ "/" +:+ name.

Definition os_listdir (d : string) : M listing :=
  fun s => match st_fs s !! d with
           | Some l => (Ok l, s)
           | None => (Raise (OSError "No such file or directory"), s)
           end.

(** [os.makedirs(d, exist_ok=True)] *)
Definition os_makedirs (d : string) : M unit :=
  modify_fs (fun fs => match fs !! d with Some _ => fs | None => <[d := []]> fs end).

Definition remove_name (name : string) (l : listing) : listing :=
  List.filter (fun e => negb (String.eqb (fst e) name)) l.

(** [os.remove(os.path.join(d, name))]: unlinks a file; a directory or a
    missing entry raises. *)
Definition os_remove (d name : string) : M unit :=
  fun s => match st_fs s !! d with
           | Some l =>
               match List.find (fun e => String.eqb (fst e) name) l with
               | Some (_, NFile _) =>
                   (Ok tt, {| st_fs := <[d := remove_name name l]> (st_fs s);
                              st_trace := st_trace s |})
               | Some (_, NDir _) => (Raise (OSError "Is a directory"), s)
               | None => (Raise (OSError "No such file or directory"), s)
               end
           | None => (Raise (OSError "No such file or directory"), s)
           end.

(** A file (re)written at [d/name]: replaced in place, or added. *)
Fixpoint set_entry (name : string) (n : node) (l : listing) : listing :=
  match l with
  | [] => [(name, n)]
  | (x, m) :: r => if String.eqb x name then (name, n) :: r else (x, m) :: set_entry name n r
  end.

Definition write_file (d name : string) (n : node) : M unit :=
  modify_fs (fun fs => match fs !! d with
                       | Some l => <[d := set_entry name n l]> fs
                       | None => fs
                       end).

(* ------------------------------------------------------------------ *)
(** ** The service *)

Record VideoInfo := { vi_title : pyval; vi_duration : pyval; vi_thumbnail : pyval }.

Record VideoRequest := { url : string; start_time : string; end_time : string }.

Record FileResponse := { fr_path : string; fr_media_type : string; fr_filename : string }.

(** The HTTP status FastAPI answers with: an [HTTPException]'s own
    status, 500 for any other uncaught exception. *)
Definition http_status {A} (r : res A) : Z :=
  match r with
  | Ok _ => 200
  | Raise (HTTPException c _) => c
  | Raise _ => 500
  end.

(** Python's [sorted(files, key=getctime)]: a stable sort on ctime. *)
Fixpoint insert_by_ctime (x : string * node) (l : listing) : listing :=
  match l with
  | [] => [x]
  | y :: r => if node_ctime (snd x) <=? node_ctime (snd y) then x :: l
              else y :: insert_by_ctime x r
  end.

Fixpoint sort_by_ctime (l : listing) : listing :=
  match l with
  | [] => []
  | x :: r => insert_by_ctime x (sort_by_ctime r)
  end.

Section Service.
Context (env : Env).

(** [os.path.join(tempfile.gettempdir(), "video-trimmer")] *)
Definition output_dir_of : string := path_join (env_gettempdir env) "video-trimmer".

(** [f"trimmed_video_{timestamp}.mp4"] *)
Definition output_filename_of : string := "trimmed_video_" +:+ env_stamp env +:+ ".mp4".

Definition get_video_info (u : string) : M VideoInfo :=
  mtry
    (let* _ := emit (EvProbe u) in
     match env_probe env u with
     | PRaise msg => mraise (ToolError msg)
     | PReturn None => mraise (AttributeError "'NoneType' object has no attribute 'get'")
     | PReturn (Some info) =>
         mret {| vi_title := dict_get info "title" (PyStr "Unknown Title");
                 vi_duration := dict_get info "duration" (PyInt 0);
                 vi_thumbnail := dict_get info "thumbnail" (PyStr "") |}
     end)
    (fun e => mraise (HTTPException 400 ("Error fetching video info: " +:+ exn_str e))).

(** [ydl.download([url])] with [outtmpl] under the temporary directory. *)
Definition ydl_download (u temp_dir : string) : M unit :=
  let* _ := emit (EvDownload u (path_join temp_dir "video.%(ext)s")) in
  match env_download env u with
  | DlRaise msg => mraise (ToolError msg)
  | DlDone _ files =>
      modify_fs (insert temp_dir (map (fun f => (f, NFile (env_clock env))) files))
  end.

(** [ffmpeg.run(stream, overwrite_output=True, capture_stdout=True,
    capture_stderr=True)] on [ffmpeg.input(input_path)] with
    [ss], [t] and stream copy. *)
Definition ffmpeg_run (input_path : string) (ss t : Z) (out_dir out_name : string) : M unit :=
  let output_path := path_join out_dir out_name in
  let* _ := emit (EvFfmpeg input_path ss t output_path) in
  let o := env_ffmpeg env input_path ss t output_path in
  let* _ := if ff_writes o then write_file out_dir out_name (NFile (env_clock env))
            else mret tt in
  if Z.eqb (ff_code o) 0 then mret tt
  else mraise (FfmpegError (ff_stdout o) (ff_stderr o)).

(** The body of [with tempfile.TemporaryDirectory() as temp_dir: try: ...]. *)
Definition download_and_trim_body (u start_t end_t temp_dir out_dir out_name : string) : M unit :=
  let* _ := ydl_download u temp_dir in
  let* ents := os_listdir temp_dir in
  match List.find (fun f => String.prefix "video." f) (map fst ents) with
  | None => mraise (Exception "Video file not found after download")
  | Some video_file =>
      let input_path := path_join temp_dir video_file in
      let* start_seconds := lift (time_to_seconds start_t) in
      let* end_seconds := lift (time_to_seconds end_t) in
      let duration := end_seconds - start_seconds in
      ffmpeg_run input_path start_seconds duration out_dir out_name
  end.

(** [download_and_trim_video]; [output_path] is [os.path.join(out_dir,
    out_name)].  The temporary directory is removed on every exit. *)
Definition download_and_trim_video (u start_t end_t out_dir out_name : string) : M unit :=
  let temp_dir := env_tmpname env in
  let* _ := modify_fs (insert temp_dir []) in
  mfinally
    (mtry (download_and_trim_body u start_t end_t temp_dir out_dir out_name)
          (fun e => mraise (HTTPException 500 ("Error processing video: " +:+ exn_str e))))
    (modify_fs (delete temp_dir)).

(** Keep only the last 10 files; removal errors are swallowed. *)
Definition retention (output_dir : string) : M unit :=
  let* ents := os_listdir output_dir in
  let files := map fst (sort_by_ctime ents) in
  if (10 <? List.length files)%nat then
    mfor (firstn (List.length files - 10)%nat files)
         (fun old_file => mtry (os_remove output_dir old_file) (fun _ => mret tt))
  else mret tt.

Definition trim_video (request : VideoRequest) : M FileResponse :=
  let* times :=
    mtry (let* s := lift (time_to_seconds (start_time request)) in
          let* e := lift (time_to_seconds (end_time request)) in
          mret (s, e))
         (fun ex => match ex with
                    | ValueError => mraise (HTTPException 400 "Invalid time format. Use HH:MM:SS")
                    | _ => mraise ex
                    end) in
  let start_seconds := fst times in
  let end_seconds := snd times in
  let* video_info := get_video_info (url request) in
  let* exceeds := lift (py_int_gt end_seconds (vi_duration video_info)) in
  if exceeds then
    mraise (HTTPException 400 ("End time exceeds video duration ("
                               +:+ py_str (vi_duration video_info) +:+ " seconds)"))
  else if end_seconds <=? start_seconds then
    mraise (HTTPException 400 "Start time must be before end time")
  else
    let output_dir := output_dir_of in
    let* _ := os_makedirs output_dir in
    let output_filename := output_filename_of in
    let output_path := path_join output_dir output_filename in
    let* _ := download_and_trim_video (url request) (start_time request) (end_time request)
                                      output_dir output_filename in
    let* _ := retention output_dir in
    mret {| fr_path := output_path; fr_media_type := "video/mp4";
            fr_filename := output_filename |}.

(** [@app.get("/api/video-info")]: [get_info(url)] returns [get_video_info(url)]. *)
Definition get_info (u : string) : M VideoInfo := get_video_info u.

End Service.

(* ------------------------------------------------------------------ *)
(** ** Sample runs *)

Definition sample_meta : gmap string pyval :=
  <["title" := PyStr "clip"]> (<["duration" := PyInt 60]> ∅).

(** An environment whose tools answer with fixed values. *)
Definition mk_sample_env (meta : gmap string pyval) (files : list string)
    (ff_code0 : Z) (ff_writes0 : bool) : Env :=
  {| env_probe := fun _ => PReturn (Some meta);
     env_download := fun _ => DlDone 0 files;
     env_ffmpeg := fun _ _ _ _ => {| ff_code := ff_code0; ff_writes := ff_writes0;
                                     ff_stdout := ""; ff_stderr := "moov atom not found" |};
     env_tmpname := "/tmp/tmpabc";
     env_gettempdir := "/tmp";
     env_stamp := "20261018_120000";
     env_clock := 100 |}.

Definition sample_env (ff_code0 : Z) (ff_writes0 : bool) : Env :=
  mk_sample_env sample_meta ["video.mp4"] ff_code0 ff_writes0.

(** Metadata that carries the key [duration] with value [None]. *)
Definition sample_env_no_duration : Env :=
  mk_sample_env {[ "duration" := PyNone ]} ["video.mp4"] 0 true.

(** Metadata with a float duration, 60.5 seconds. *)
Definition sample_env_float : Env :=
  mk_sample_env {[ "duration" := PyFloat (FFinite 121 (-1) "60.5") ]} ["video.mp4"] 0 true.

(** Metadata without any of the three keys. *)
Definition sample_env_empty_meta : Env := mk_sample_env ∅ ["video.mp4"] 0 true.

(** A download that leaves a file under another name. *)
Definition sample_env_renamed : Env := mk_sample_env sample_meta ["clip.mp4"] 0 true.

(** A download whose error yt-dlp swallows ([ignoreerrors]): status 1,
    a partial file left behind. *)
Definition sample_env_partial_download : Env :=
  {| env_probe := fun _ => PReturn (Some sample_meta);
     env_download := fun _ => DlDone 1 ["video.f137.mp4.part"];
     env_ffmpeg := fun _ _ _ _ => {| ff_code := 0; ff_writes := true;
                                     ff_stdout := ""; ff_stderr := "" |};
     env_tmpname := "/tmp/tmpabc";
     env_gettempdir := "/tmp";
     env_stamp := "20261018_120000";
     env_clock := 100 |}.

(** An output directory of [n] files, created at times 1 .. n. *)
Definition sample_listing (n : nat) : listing :=
  map (fun i => ("trimmed_video_" +:+ z_str (Z.of_nat i) +:+ ".mp4", NFile (Z.of_nat i)))
      (seq 1 n).

(** 15 earlier files plus the one just written. *)
Definition sample_dir_state : St :=
  {| st_fs := {[ "/tmp/video-trimmer" := sample_listing 16 ]}; st_trace := [] |}.

(** 10 files and, oldest, a subdirectory. *)
Definition sample_dir_with_subdir : St :=
  {| st_fs := {[ "/tmp/video-trimmer" := ("cache", NDir 0) :: sample_listing 10 ]};
     st_trace := [] |}.

Definition st0 : St := {| st_fs := ∅; st_trace := [] |}.

Definition req (s e : string) : VideoRequest :=
  {| url := "https://example.com/v"; start_time := s; end_time := e |}.

(** A state with a directory the service does not own. *)
Definition sample_other_state : St :=
  {| st_fs := {[ "/home/u/videos" := [("a.mp4", NFile 1)] ]}; st_trace := [] |}.

(** [n] earlier files in the output directory. *)
Definition sample_dir_before (n : nat) : St :=
  {| st_fs := {[ "/tmp/video-trimmer" := sample_listing n ]}; st_trace := [] |}.

(* ------------------------------------------------------------------ *)
(** ** Predicates used in the statements *)

(** The trace only grows. *)
Definition appends {A} (m : M A) : Prop :=
  forall s, exists tr, st_trace (snd (m s)) = st_trace s ++ tr.

(** The request is refused after the probe: status 400, the trace holds
    the probe only, the filesystem is untouched. *)
Definition refused_after_probe (env : Env) (r : VideoRequest) (st : St) : Prop :=
  http_status (fst (trim_video env r st)) = 400 /\
  st_trace (snd (trim_video env r st)) = st_trace st ++ [EvProbe (url r)] /\
  st_fs (snd (trim_video env r st)) = st_fs st.

(** The request passes every check of [trim_video]: both times parse,
    start < end, and the probe reports a duration for which
    [end_seconds > duration] is [False] (an int or float >= end, or nan). *)
Definition passes_validation (env : Env) (r : VideoRequest) (s e : Z) : Prop :=
  time_to_seconds (start_time r) = Ok s /\ time_to_seconds (end_time r) = Ok e /\
  s < e /\
  exists info, env_probe env (url r) = PReturn (Some info) /\
               py_int_gt e (dict_get info "duration" (PyInt 0)) = Ok false.

(** An int or a float: the values [end_seconds > duration] compares
    without raising. *)
Definition py_is_number (v : pyval) : bool :=
  match v with PyInt _ | PyFloat _ => true | _ => false end.

(** The state [trim_video] hands to the orchestrator. *)
Definition st_before_orchestrator (env : Env) (r : VideoRequest) (st : St) : St :=
  {| st_fs := match st_fs st !! output_dir_of env with
              | Some _ => st_fs st
              | None => <[output_dir_of env := []]> (st_fs st)
              end;
     st_trace := st_trace st ++ [EvProbe (url r)] |}.

Definition ctime_le (a b : string * node) : Prop := node_ctime (snd a) <= node_ctime (snd b).

(** An entry survives the removal of [names] unless it is a file named
    in [names]. *)
Definition survives (names : list string) (e : string * node) : bool :=
  negb (is_file (snd e) && existsb (String.eqb (fst e)) names).

(** A monadic step keeps the property [P] of the filesystem. *)
Definition fs_preserves {A} (P : fsys -> Prop) (m : M A) : Prop :=
  forall s, P (st_fs s) -> P (st_fs (snd (m s))).

(* ------------------------------------------------------------------ *)
(** ** Sample runs *)

Example time_ex1 : time_to_seconds "01:02:03" = Ok 3723.
Proof. reflexivity. Qed.
Example time_ex2 : time_to_seconds "1:2" = Raise ValueError.
Proof. reflexivity. Qed.
Example time_ex3 : time_to_seconds " +1_0 :00:-5" = Ok 35995.
Proof. reflexivity. Qed.
Example time_ex4 : time_to_seconds "1__0:00:00" = Raise ValueError.
Proof. reflexivity. Qed.

Example z_str_ex : z_str 3723 = "3723" /\ z_str (-5) = "-5" /\ z_str 10 = "10".
Proof. repeat split; reflexivity. Qed.

Example sample_ok :
  trim_video (sample_env 0 true) (req "00:00:05" "00:00:10") st0 =
  (Ok {| fr_path := "/tmp/video-trimmer/trimmed_video_20261018_120000.mp4";
         fr_media_type := "video/mp4";
         fr_filename := "trimmed_video_20261018_120000.mp4" |},
   {| st_fs := {[ "/tmp/video-trimmer" := [("trimmed_video_20261018_120000.mp4", NFile 100)] ]};
      st_trace := [EvProbe "https://example.com/v";
                   EvDownload "https://example.com/v" "/tmp/tmpabc/video.%(ext)s";
                   EvFfmpeg "/tmp/tmpabc/video.mp4" 5 5
                            "/tmp/video-trimmer/trimmed_video_20261018_120000.mp4"] |}).
Proof. vm_compute. reflexivity. Qed.

(** A float duration of 60.5 seconds compares with the integer end time:
    10 seconds passes, 61 seconds is refused with the float's text. *)
Example sample_float_duration :
  fst (trim_video sample_env_float (req "00:00:05" "00:00:10") st0) =
  Ok {| fr_path := "/tmp/video-trimmer/trimmed_video_20261018_120000.mp4";
        fr_media_type := "video/mp4";
        fr_filename := "trimmed_video_20261018_120000.mp4" |} /\
  fst (trim_video sample_env_float (req "00:00:05" "00:01:01") st0) =
  Raise (HTTPException 400 "End time exceeds video duration (60.5 seconds)").
Proof. split; vm_compute; reflexivity. Qed.

(* ------------------------------------------------------------------ *)
(** ** The trace only grows *)

Create HintDb appends_db.

Lemma appends_ret {A} (a : A) : appends (mret a).
Proof. intros s. exists []. by rewrite app_nil_r. Qed.

Lemma appends_raise {A} e : appends (@mraise A e).
Proof. intros s. exists []. by rewrite app_nil_r. Qed.

Lemma appends_lift {A} (r : res A) : appends (lift r).
Proof. intros s. exists []. by rewrite app_nil_r. Qed.

Lemma appends_emit ev : appends (emit ev).
Proof. intros s. by exists [ev]. Qed.

Lemma appends_modify_fs f : appends (modify_fs f).
Proof. intros s. exists []. simpl. by rewrite app_nil_r. Qed.

Lemma appends_listdir d : appends (os_listdir d).
Proof.
  intros s. exists []. unfold os_listdir. rewrite app_nil_r.
  by destruct (st_fs s !! d).
Qed.

Lemma appends_remove d n : appends (os_remove d n).
Proof.
  intros s. exists []. unfold os_remove. rewrite app_nil_r.
  destruct (st_fs s !! d) as [l|]; [|done].
  destruct (List.find _ l) as [[? []]|]; done.
Qed.

Lemma appends_makedirs d : appends (os_makedirs d).
Proof. apply appends_modify_fs. Qed.

Lemma appends_write d n nd : appends (write_file d n nd).
Proof. apply appends_modify_fs. Qed.

Lemma appends_bind {A B} (m : M A) (k : A -> M B) :
  appends m -> (forall a, appends (k a)) -> appends (mbind m k).
Proof.
  intros Hm Hk s. unfold mbind. destruct (Hm s) as [tr1 H1].
  destruct (m s) as [[a|e] s'] eqn:E; simpl in *.
  - destruct (Hk a s') as [tr2 H2]. exists (tr1 ++ tr2).
    by rewrite H2, H1, app_assoc.
  - by exists tr1.
Qed.

Lemma appends_try {A} (m : M A) h :
  appends m -> (forall e, appends (h e)) -> appends (mtry m h).
Proof.
  intros Hm Hh s. unfold mtry. destruct (Hm s) as [tr1 H1].
  destruct (m s) as [[a|e] s'] eqn:E; simpl in *.
  - by exists tr1.
  - destruct (Hh e s') as [tr2 H2]. exists (tr1 ++ tr2).
    by rewrite H2, H1, app_assoc.
Qed.

Lemma appends_finally {A} (m : M A) c :
  appends m -> appends c -> appends (mfinally m c).
Proof.
  intros Hm Hc s. unfold mfinally. destruct (Hm s) as [tr1 H1].
  destruct (m s) as [r s'] eqn:E; simpl in *.
  destruct (Hc s') as [tr2 H2].
  destruct (c s') as [[]] eqn:E2; simpl in *;
    exists (tr1 ++ tr2); by rewrite H2, H1, app_assoc.
Qed.

Lemma appends_for {A} (xs : list A) f :
  (forall x, appends (f x)) -> appends (mfor xs f).
Proof.
  intros Hf. induction xs as [|x xs IH]; simpl.
  - apply appends_ret.
  - apply appends_bind; auto.
Qed.

Global Hint Resolve appends_ret appends_raise appends_lift appends_emit
  appends_modify_fs appends_makedirs appends_listdir appends_remove appends_write appends_bind
  appends_try appends_finally appends_for : appends_db.

(** Steps through a definition's body, splitting its conditionals. *)
Ltac appends_steps :=
  repeat first
    [ progress (auto with appends_db)
    | apply appends_bind; [|intro]
    | apply appends_try; [|intro]
    | apply appends_finally
    | apply appends_for; intro
    | match goal with
      | |- appends (if ?b then _ else _) => destruct b
      | |- appends (match ?x with _ => _ end) => destruct x
      end ].

Lemma appends_get_video_info env u : appends (get_video_info env u).
Proof. unfold get_video_info. appends_steps. Qed.

Lemma appends_download_and_trim env u a b d n :
  appends (download_and_trim_video env u a b d n).
Proof.
  unfold download_and_trim_video, download_and_trim_body, ydl_download, ffmpeg_run.
  appends_steps.
Qed.

Lemma appends_retention d : appends (retention d).
Proof. unfold retention. appends_steps. Qed.

Global Hint Resolve appends_get_video_info appends_download_and_trim
  appends_retention : appends_db.

(* ------------------------------------------------------------------ *)
(** ** Running [trim_video] past its first steps *)

(** The time check either answers 400 at once, or hands both times on
    with the state untouched. *)
Lemma trim_video_parsed env r st s e :
  time_to_seconds (start_time r) = Ok s ->
  time_to_seconds (end_time r) = Ok e ->
  trim_video env r st =
  mbind (get_video_info env (url r))
    (fun video_info =>
       let* exceeds := lift (py_int_gt e (vi_duration video_info)) in
       if exceeds then
         mraise (HTTPException 400 ("End time exceeds video duration ("
                                    +:+ py_str (vi_duration video_info) +:+ " seconds)"))
       else if e <=? s then
         mraise (HTTPException 400 "Start time must be before end time")
       else
         let* _ := os_makedirs (output_dir_of env) in
         let* _ := download_and_trim_video env (url r) (start_time r) (end_time r)
                     (output_dir_of env) (output_filename_of env) in
         let* _ := retention (output_dir_of env) in
         mret {| fr_path := path_join (output_dir_of env) (output_filename_of env);
                 fr_media_type := "video/mp4"; fr_filename := output_filename_of env |}) st.
Proof.
  intros Hs He. unfold trim_video at 1. unfold mbind at 1, mtry, lift at 1 2.
  rewrite Hs. unfold mbind at 1. rewrite He. reflexivity.
Qed.

Lemma time_to_seconds_value_error ts ex :
  time_to_seconds ts = Raise ex -> ex = ValueError.
Proof.
  unfold time_to_seconds.
  destruct (py_split ":" ts) as [|? [|? [|? [|]]]]; try congruence.
  repeat destruct (py_int _); congruence.
Qed.

Lemma trim_video_bad_time env r st :
  time_to_seconds (start_time r) = Raise ValueError \/
  time_to_seconds (end_time r) = Raise ValueError ->
  trim_video env r st = (Raise (HTTPException 400 "Invalid time format. Use HH:MM:SS"), st).
Proof.
  intros H. unfold trim_video, mbind at 1, mtry, lift at 1 2.
  destruct (time_to_seconds (start_time r)) as [s|ex] eqn:Hs.
  - destruct H as [H|H]; [discriminate|]. unfold mbind at 1. rewrite H. reflexivity.
  - apply time_to_seconds_value_error in Hs as ->. reflexivity.
Qed.

Lemma get_video_info_trace env u st :
  st_trace (snd (get_video_info env u st)) = st_trace st ++ [EvProbe u] /\
  st_fs (snd (get_video_info env u st)) = st_fs st.
Proof.
  unfold get_video_info, mtry, mbind, emit.
  destruct (env_probe env u) as [msg|[info|]]; done.
Qed.

Lemma get_video_info_dict env u st info :
  env_probe env u = PReturn (Some info) ->
  get_video_info env u st =
  (Ok {| vi_title := dict_get info "title" (PyStr "Unknown Title");
         vi_duration := dict_get info "duration" (PyInt 0);
         vi_thumbnail := dict_get info "thumbnail" (PyStr "") |},
   {| st_fs := st_fs st; st_trace := st_trace st ++ [EvProbe u] |}).
Proof. intros H. unfold get_video_info, mtry, mbind, emit. simpl. by rewrite H. Qed.

Lemma get_video_info_raise env u st msg :
  env_probe env u = PRaise msg ->
  get_video_info env u st =
  (Raise (HTTPException 400 ("Error fetching video info: " +:+ msg)),
   {| st_fs := st_fs st; st_trace := st_trace st ++ [EvProbe u] |}).
Proof. intros H. unfold get_video_info, mtry, mbind, emit. simpl. by rewrite H. Qed.

Lemma get_video_info_none env u st :
  env_probe env u = PReturn None ->
  get_video_info env u st =
  (Raise (HTTPException 400 ("Error fetching video info: "
                             +:+ "'NoneType' object has no attribute 'get'")),
   {| st_fs := st_fs st; st_trace := st_trace st ++ [EvProbe u] |}).
Proof. intros H. unfold get_video_info, mtry, mbind, emit. simpl. by rewrite H. Qed.

Lemma bind_after {A B} (m : M A) (k : A -> M B) s tr0 :
  st_trace (snd (m s)) = st_trace s ++ tr0 -> (forall a, appends (k a)) ->
  exists tr, st_trace (snd (mbind m k s)) = st_trace s ++ tr0 ++ tr.
Proof.
  intros Hm Hk. unfold mbind.
  destruct (m s) as [[a|e] s'] eqn:E; simpl in *.
  - destruct (Hk a s') as [tr Htr]. exists tr. by rewrite Htr, Hm, app_assoc.
  - exists []. by rewrite Hm, app_nil_r.
Qed.

(* ------------------------------------------------------------------ *)
(** ** The time parser *)

(** C2: a string that splits on ':' into exactly three fields [int()]
    accepts parses to H*3600 + M*60 + S ("01:02:03" is 3723, "00:00:00"
    is 0); any other string ("1:2", "ab:cd:ef") raises [ValueError]
    (InvalidTimeFormat), which the trim endpoint answers with a 400 error
    before invoking any tool. *)
Theorem time_to_seconds_contract :
  (forall (time_str a b c : string) (h m s : Z),
     py_split ":" time_str = [a; b; c] ->
     py_int a = Some h -> py_int b = Some m -> py_int c = Some s ->
     time_to_seconds time_str = Ok (h * 3600 + m * 60 + s)) /\
  (forall time_str : string,
     ~ (exists a b c h m s, py_split ":" time_str = [a; b; c] /\
          py_int a = Some h /\ py_int b = Some m /\ py_int c = Some s) ->
     time_to_seconds time_str = Raise ValueError) /\
  (forall env r st,
     time_to_seconds (start_time r) = Raise ValueError \/
     time_to_seconds (end_time r) = Raise ValueError ->
     trim_video env r st = (Raise (HTTPException 400 "Invalid time format. Use HH:MM:SS"), st) /\
     http_status (fst (trim_video env r st)) = 400) /\
  time_to_seconds "01:02:03" = Ok 3723 /\ time_to_seconds "00:00:00" = Ok 0 /\
  time_to_seconds "1:2" = Raise ValueError /\ time_to_seconds "ab:cd:ef" = Raise ValueError.
Proof.
  split; [|split; [|split]].
  - intros ts a b c h m s Hsp Ha Hb Hc. unfold time_to_seconds.
    by rewrite Hsp, Ha, Hb, Hc.
  - intros ts Hno. unfold time_to_seconds.
    destruct (py_split ":" ts) as [|a [|b [|c [|]]]] eqn:Hsp; try done.
    destruct (py_int a) as [h|] eqn:Ha; [|done].
    destruct (py_int b) as [m|] eqn:Hb; [|done].
    destruct (py_int c) as [s|] eqn:Hc; [|done].
    exfalso. apply Hno. by exists a, b, c, h, m, s.
  - intros env r st H. rewrite (trim_video_bad_time env r st H). done.
  - repeat split; reflexivity.
Qed.

(** C9: [int()] accepts a signed field, so "00:00:-5" parses to -5
    rather than raising; a request with that start time passes the
    endpoint's format check and goes on to the metadata probe. *)
Theorem negative_field_accepted :
  time_to_seconds "00:00:-5" = Ok (-5) /\
  forall env u st,
    exists tr,
      st_trace (snd (trim_video env {| url := u; start_time := "00:00:-5";
                                       end_time := "00:00:05" |} st))
      = st_trace st ++ EvProbe u :: tr.
Proof.
  split; [reflexivity|].
  intros env u st.
  rewrite (trim_video_parsed env _ st (-5) 5) by reflexivity.
  apply (bind_after (get_video_info env u) _ st [EvProbe u]).
  - apply get_video_info_trace.
  - intros vi. appends_steps.
Qed.

(* ------------------------------------------------------------------ *)
(** ** The video-info fetcher *)

(** C7: when the tool returns a dict, the fetcher returns its title,
    duration and thumbnail, falling back to "Unknown Title", 0 and "" for
    absent keys; when the tool raises, the fetcher raises a 400 error
    (VideoInfoError) whose detail wraps the tool's message. *)
Theorem get_video_info_contract env u st :
  (forall info, env_probe env u = PReturn (Some info) ->
     exists vi, fst (get_video_info env u st) = Ok vi /\
       vi_title vi = (match info !! "title" with Some v => v | None => PyStr "Unknown Title" end) /\
       vi_duration vi = (match info !! "duration" with Some v => v | None => PyInt 0 end) /\
       vi_thumbnail vi = (match info !! "thumbnail" with Some v => v | None => PyStr "" end)) /\
  (forall msg, env_probe env u = PRaise msg ->
     fst (get_video_info env u st)
     = Raise (HTTPException 400 ("Error fetching video info: " +:+ msg)) /\
     http_status (fst (get_video_info env u st)) = 400).
Proof.
  split.
  - intros info H. rewrite (get_video_info_dict env u st info H).
    eexists. split; [reflexivity|]. unfold dict_get. simpl. done.
  - intros msg H. rewrite (get_video_info_raise env u st msg H). done.
Qed.

(* ------------------------------------------------------------------ *)
(** ** Validation of a trim request *)

Lemma refused_of_eq env r st d :
  trim_video env r st =
  (Raise (HTTPException 400 d),
   {| st_fs := st_fs st; st_trace := st_trace st ++ [EvProbe (url r)] |}) ->
  refused_after_probe env r st.
Proof. intros H. unfold refused_after_probe. rewrite H. simpl. repeat split. Qed.

Lemma refused_when_info_fails env r st s e :
  time_to_seconds (start_time r) = Ok s ->
  time_to_seconds (end_time r) = Ok e ->
  (exists msg, env_probe env (url r) = PRaise msg) \/ env_probe env (url r) = PReturn None ->
  refused_after_probe env r st.
Proof.
  intros Hs He [[msg Hp]|Hp]; eapply refused_of_eq;
    rewrite (trim_video_parsed env r st s e Hs He); unfold mbind at 1.
  - rewrite (get_video_info_raise env (url r) st msg Hp). reflexivity.
  - rewrite (get_video_info_none env (url r) st Hp). reflexivity.
Qed.

(** With an integer duration [d] reported, the request is refused when
    [e > d] or [e <= s]. *)
Lemma refused_on_duration_or_order env r st s e info d :
  time_to_seconds (start_time r) = Ok s ->
  time_to_seconds (end_time r) = Ok e ->
  env_probe env (url r) = PReturn (Some info) ->
  dict_get info "duration" (PyInt 0) = PyInt d ->
  d < e \/ e <= s ->
  refused_after_probe env r st.
Proof.
  intros Hs He Hp Hd Hcase.
  destruct (d <? e) eqn:Hde;
    [| assert (Hc : (e <=? s) = true)
         by (apply Z.ltb_ge in Hde; apply Z.leb_le; destruct Hcase; lia) ];
    eapply refused_of_eq;
    rewrite (trim_video_parsed env r st s e Hs He); unfold mbind at 1;
    rewrite (get_video_info_dict env (url r) st info Hp); simpl; rewrite Hd;
    unfold mbind, lift, py_int_gt; rewrite Hde.
  - reflexivity.
  - rewrite Hc. reflexivity.
Qed.

(** C5: a well-formed request whose end time exceeds the integer
    duration the probe reports is refused with 400, and the only tool
    invocation is the metadata probe: nothing is downloaded. *)
Theorem end_beyond_duration_refused env r st s e info d :
  time_to_seconds (start_time r) = Ok s ->
  time_to_seconds (end_time r) = Ok e ->
  env_probe env (url r) = PReturn (Some info) ->
  dict_get info "duration" (PyInt 0) = PyInt d ->
  d < e ->
  refused_after_probe env r st.
Proof.
  intros Hs He Hp Hd Hlt.
  apply (refused_on_duration_or_order env r st s e info d); auto.
Qed.

Lemma end_beyond_duration_refused_witness :
  time_to_seconds "00:00:05" = Ok 5 /\ time_to_seconds "00:02:00" = Ok 120 /\
  env_probe (sample_env 0 true) "https://example.com/v" = PReturn (Some sample_meta) /\
  dict_get sample_meta "duration" (PyInt 0) = PyInt 60 /\ 60 < 120 /\
  refused_after_probe (sample_env 0 true) (req "00:00:05" "00:02:00") st0.
Proof.
  split; [reflexivity|]. split; [reflexivity|]. split; [reflexivity|].
  split; [reflexivity|]. split; [lia|].
  apply (end_beyond_duration_refused (sample_env 0 true) (req "00:00:05" "00:02:00") st0
           5 120 sample_meta 60); try reflexivity; lia.
Defined.

(** C10: when the metadata has no [duration] key the fetcher reports 0,
    and every request with well-formed non-negative times is refused
    with 400 after the probe, so nothing is downloaded. *)
Theorem missing_duration_refuses_all env r st s e info :
  time_to_seconds (start_time r) = Ok s ->
  time_to_seconds (end_time r) = Ok e ->
  0 <= s -> 0 <= e ->
  env_probe env (url r) = PReturn (Some info) ->
  info !! "duration" = None ->
  refused_after_probe env r st.
Proof.
  intros Hs He Hs0 He0 Hp Hnone.
  apply (refused_on_duration_or_order env r st s e info 0); auto.
  - unfold dict_get. by rewrite Hnone.
  - lia.
Qed.

Lemma missing_duration_refuses_all_witness :
  time_to_seconds "00:00:00" = Ok 0 /\ time_to_seconds "00:00:07" = Ok 7 /\
  env_probe sample_env_empty_meta "https://example.com/v" = PReturn (Some ∅) /\
  (∅ : gmap string pyval) !! "duration" = None /\
  refused_after_probe sample_env_empty_meta (req "00:00:00" "00:00:07") st0.
Proof.
  split; [reflexivity|]. split; [reflexivity|]. split; [reflexivity|].
  split; [reflexivity|].
  apply (missing_duration_refuses_all sample_env_empty_meta (req "00:00:00" "00:00:07") st0 0 7 ∅);
    try reflexivity; lia.
Defined.

(** With both times parsed, start >= end and metadata reported, the
    outcome is decided by [end_seconds > duration]: [True] gives the
    duration message, [False] the order message, a raise propagates. *)
Lemma trim_video_after_probe env r st s e info :
  time_to_seconds (start_time r) = Ok s ->
  time_to_seconds (end_time r) = Ok e ->
  env_probe env (url r) = PReturn (Some info) ->
  e <= s ->
  trim_video env r st =
  (match py_int_gt e (dict_get info "duration" (PyInt 0)) with
   | Ok true => Raise (HTTPException 400 ("End time exceeds video duration ("
                        +:+ py_str (dict_get info "duration" (PyInt 0)) +:+ " seconds)"))
   | Ok false => Raise (HTTPException 400 "Start time must be before end time")
   | Raise ex => Raise ex
   end,
   {| st_fs := st_fs st; st_trace := st_trace st ++ [EvProbe (url r)] |}).
Proof.
  intros Hs He Hp Hle.
  rewrite (trim_video_parsed env r st s e Hs He). unfold mbind at 1.
  rewrite (get_video_info_dict env (url r) st info Hp). simpl.
  unfold mbind at 1, lift.
  destruct (py_int_gt e (dict_get info "duration" (PyInt 0))) as [[|]|ex]; [reflexivity| |reflexivity].
  apply Z.leb_le in Hle. rewrite Hle. reflexivity.
Qed.

Lemma py_int_gt_number n v :
  py_is_number v = true -> exists b, py_int_gt n v = Ok b.
Proof. destruct v as [|z|[m k rp|neg|]|t]; try discriminate; intros _; by eexists. Qed.

Lemma py_int_gt_not_number n v :
  py_is_number v = false ->
  py_int_gt n v = Raise (TypeError ("'>' not supported between instances of 'int' and '"
                                    +:+ py_type_name v +:+ "'")).
Proof. destruct v as [|z|f|t]; try discriminate; reflexivity. Qed.

(** C1 (as the code does it): for a request whose times parse with
    start >= end, the metadata probe runs first; the request then fails
    with the probe as its only tool invocation and the filesystem
    unchanged, so nothing is downloaded.  The failure is a 400 error
    unless the probe returns metadata whose duration is not a number
    (neither an int nor a float; a missing one reads as 0): then the
    comparison raises [TypeError] and the status is 500. *)
Theorem start_not_before_end_refused env r st s e :
  time_to_seconds (start_time r) = Ok s ->
  time_to_seconds (end_time r) = Ok e ->
  e <= s ->
  st_trace (snd (trim_video env r st)) = st_trace st ++ [EvProbe (url r)] /\
  st_fs (snd (trim_video env r st)) = st_fs st /\
  ((forall info, env_probe env (url r) = PReturn (Some info) ->
      py_is_number (dict_get info "duration" (PyInt 0)) = true) ->
   http_status (fst (trim_video env r st)) = 400) /\
  (forall info, env_probe env (url r) = PReturn (Some info) ->
      py_is_number (dict_get info "duration" (PyInt 0)) = false ->
   http_status (fst (trim_video env r st)) = 500).
Proof.
  intros Hs He Hle.
  destruct (env_probe env (url r)) as [msg|[info|]] eqn:Hp.
  - destruct (refused_when_info_fails env r st s e Hs He (or_introl (ex_intro _ msg Hp)))
      as (H400 & Htr & Hfs).
    split; [done|]. split; [done|]. split; [by intros _|].
    intros info Hi. congruence.
  - rewrite (trim_video_after_probe env r st s e info Hs He Hp Hle). simpl.
    split; [done|]. split; [done|]. split.
    + intros Hnum. destruct (py_int_gt_number e _ (Hnum info eq_refl)) as [[|] Hb];
        rewrite Hb; reflexivity.
    + intros info' Hi Hnum. assert (info' = info) as -> by congruence.
      by rewrite (py_int_gt_not_number e _ Hnum).
  - destruct (refused_when_info_fails env r st s e Hs He (or_intror Hp))
      as (H400 & Htr & Hfs).
    split; [done|]. split; [done|]. split; [by intros _|].
    intros info Hi. congruence.
Qed.

Lemma start_not_before_end_refused_witness :
  http_status (fst (trim_video sample_env_float (req "00:00:10" "00:00:05") st0)) = 400 /\
  http_status (fst (trim_video sample_env_no_duration (req "00:00:10" "00:00:05") st0)) = 500.
Proof.
  split.
  - destruct (start_not_before_end_refused sample_env_float (req "00:00:10" "00:00:05") st0
                10 5 eq_refl eq_refl ltac:(lia)) as (_ & _ & H & _).
    apply H. intros info Hi. injection Hi as <-. reflexivity.
  - destruct (start_not_before_end_refused sample_env_no_duration (req "00:00:10" "00:00:05") st0
                10 5 eq_refl eq_refl ltac:(lia)) as (_ & _ & _ & H).
    apply (H {[ "duration" := PyNone ]}); reflexivity.
Defined.

(** C1 as stated fails: with start after end the metadata probe is
    invoked before the request is refused, and when the metadata holds
    [duration: None] the comparison raises [TypeError] (status 500). *)
Lemma start_not_before_end_counterexample :
  time_to_seconds "00:00:10" = Ok 10 /\ time_to_seconds "00:00:05" = Ok 5 /\
  st_trace (snd (trim_video (sample_env 0 true) (req "00:00:10" "00:00:05") st0))
    = [EvProbe "https://example.com/v"] /\
  http_status (fst (trim_video sample_env_no_duration (req "00:00:10" "00:00:05") st0)) = 500.
Proof. repeat split; vm_compute; reflexivity. Qed.

(* ------------------------------------------------------------------ *)
(** ** The download-and-trim orchestrator *)

Lemma dtv_download_raises env u a b od on st msg :
  env_download env u = DlRaise msg ->
  download_and_trim_video env u a b od on st =
  (Raise (HTTPException 500 ("Error processing video: " +:+ msg)),
   {| st_fs := delete (env_tmpname env) (<[env_tmpname env := []]> (st_fs st));
      st_trace := st_trace st ++ [EvDownload u (path_join (env_tmpname env) "video.%(ext)s")] |}).
Proof.
  intros Hd. unfold download_and_trim_video, download_and_trim_body, ydl_download.
  unfold mfinally, mtry, mbind, modify_fs, emit. simpl. rewrite Hd. reflexivity.
Qed.

Lemma dtv_no_video_file env u a b od on st rc files :
  env_download env u = DlDone rc files ->
  List.find (fun f => String.prefix "video." f) files = None ->
  download_and_trim_video env u a b od on st =
  (Raise (HTTPException 500 "Error processing video: Video file not found after download"),
   {| st_fs := delete (env_tmpname env)
                 (<[env_tmpname env := map (fun f => (f, NFile (env_clock env))) files]>
                    (<[env_tmpname env := []]> (st_fs st)));
      st_trace := st_trace st ++ [EvDownload u (path_join (env_tmpname env) "video.%(ext)s")] |}).
Proof.
  intros Hd Hf. unfold download_and_trim_video, download_and_trim_body, ydl_download.
  unfold mfinally, mtry, mbind, modify_fs, emit, os_listdir. simpl. rewrite Hd. simpl.
  rewrite lookup_insert_eq, map_map. simpl. rewrite map_id, Hf. reflexivity.
Qed.

(** The run that reaches the media tool. *)
Lemma dtv_reaches_ffmpeg env u a b od on st rc files vf s e :
  env_download env u = DlDone rc files ->
  List.find (fun f => String.prefix "video." f) files = Some vf ->
  time_to_seconds a = Ok s -> time_to_seconds b = Ok e ->
  let tmp := env_tmpname env in
  let o := env_ffmpeg env (path_join tmp vf) s (e - s) (path_join od on) in
  let fs1 := <[tmp := map (fun f => (f, NFile (env_clock env))) files]>
               (<[tmp := []]> (st_fs st)) in
  let fs2 := if ff_writes o
             then match fs1 !! od with
                  | Some l => <[od := set_entry on (NFile (env_clock env)) l]> fs1
                  | None => fs1
                  end
             else fs1 in
  download_and_trim_video env u a b od on st =
  (if Z.eqb (ff_code o) 0 then Ok tt
   else Raise (HTTPException 500
                 "Error processing video: ffmpeg error (see stderr output for detail)"),
   {| st_fs := delete tmp fs2;
      st_trace := st_trace st ++ [EvDownload u (path_join tmp "video.%(ext)s");
                                  EvFfmpeg (path_join tmp vf) s (e - s) (path_join od on)] |}).
Proof.
  intros Hd Hf Ha Hb tmp o fs1 fs2.
  unfold download_and_trim_video, download_and_trim_body, ydl_download, ffmpeg_run.
  unfold mfinally, mtry, mbind, modify_fs, emit, os_listdir, lift. simpl. rewrite Hd. simpl.
  rewrite lookup_insert_eq, map_map. simpl. rewrite map_id, Hf, Ha, Hb.
  fold tmp o. unfold write_file, modify_fs, mret, mraise. simpl.
  rewrite <- !app_assoc. simpl. fold fs1.
  unfold fs2. destruct (ff_writes o), (Z.eqb (ff_code o) 0); reflexivity.
Qed.

(** C6: whether the orchestrator succeeds or raises, the temporary
    directory it made is gone when it returns. *)
Theorem temp_dir_removed env u a b od on st :
  st_fs (snd (download_and_trim_video env u a b od on st)) !! env_tmpname env = None.
Proof.
  unfold download_and_trim_video, mfinally, mbind at 1, modify_fs at 1.
  simpl.
  destruct (mtry _ _ _) as [r s'].
  simpl. apply lookup_delete_eq.
Qed.

(** C8: when the extraction tool returns without raising but left no
    file named [video.*], the orchestrator raises a 500 error
    (DownloadedFileMissing) and the media tool is never run. *)
Theorem missing_video_file_fails env u a b od on st rc files :
  env_download env u = DlDone rc files ->
  Forall (fun f => String.prefix "video." f = false) files ->
  fst (download_and_trim_video env u a b od on st)
  = Raise (HTTPException 500 "Error processing video: Video file not found after download") /\
  st_trace (snd (download_and_trim_video env u a b od on st))
  = st_trace st ++ [EvDownload u (path_join (env_tmpname env) "video.%(ext)s")].
Proof.
  intros Hd Hall.
  assert (Hf : List.find (fun f => String.prefix "video." f) files = None).
  { clear Hd. induction Hall as [|f fs Hf' _ IH]; [reflexivity|].
    simpl. rewrite Hf'. exact IH. }
  rewrite (dtv_no_video_file env u a b od on st rc files Hd Hf). done.
Qed.

Lemma missing_video_file_fails_witness :
  env_download sample_env_renamed "https://example.com/v" = DlDone 0 ["clip.mp4"] /\
  Forall (fun f => String.prefix "video." f = false) ["clip.mp4"] /\
  fst (download_and_trim_video sample_env_renamed "https://example.com/v" "00:00:05" "00:00:10"
         "/tmp/video-trimmer" "out.mp4" st0)
  = Raise (HTTPException 500 "Error processing video: Video file not found after download") /\
  st_trace (snd (download_and_trim_video sample_env_renamed "https://example.com/v" "00:00:05"
                   "00:00:10" "/tmp/video-trimmer" "out.mp4" st0))
  = st_trace st0 ++ [EvDownload "https://example.com/v" (path_join "/tmp/tmpabc" "video.%(ext)s")].
Proof.
  assert (Hall : Forall (fun f => String.prefix "video." f = false) ["clip.mp4"]).
  { repeat constructor. }
  split; [reflexivity|]. split; [exact Hall|].
  apply (missing_video_file_fails sample_env_renamed _ _ _ _ _ st0 0 ["clip.mp4"]);
    [reflexivity | exact Hall].
Defined.

(* ------------------------------------------------------------------ *)
(** ** Tool failures *)

Lemma trim_video_validated env r st s e :
  passes_validation env r s e ->
  trim_video env r st =
  mbind (download_and_trim_video env (url r) (start_time r) (end_time r)
           (output_dir_of env) (output_filename_of env))
    (fun _ =>
       let* _ := retention (output_dir_of env) in
       mret {| fr_path := path_join (output_dir_of env) (output_filename_of env);
               fr_media_type := "video/mp4"; fr_filename := output_filename_of env |})
    {| st_fs := match st_fs st !! output_dir_of env with
                | Some _ => st_fs st
                | None => <[output_dir_of env := []]> (st_fs st)
                end;
       st_trace := st_trace st ++ [EvProbe (url r)] |}.
Proof.
  intros (Hs & He & Hlt & info & Hp & Hgt).
  rewrite (trim_video_parsed env r st s e Hs He). unfold mbind at 1.
  rewrite (get_video_info_dict env (url r) st info Hp). simpl.
  unfold mbind at 1, lift. rewrite Hgt.
  assert (H2 : (e <=? s) = false) by (apply Z.leb_gt; lia).
  rewrite H2. reflexivity.
Qed.

Lemma trim_video_orchestrator_raises env r st s e ex st' :
  passes_validation env r s e ->
  download_and_trim_video env (url r) (start_time r) (end_time r)
    (output_dir_of env) (output_filename_of env) (st_before_orchestrator env r st)
  = (Raise ex, st') ->
  trim_video env r st = (Raise ex, st').
Proof.
  intros Hv Hd. rewrite (trim_video_validated env r st s e Hv).
  unfold mbind at 1. unfold st_before_orchestrator in Hd. by rewrite Hd.
Qed.

Lemma set_entry_in name n l : In (name, n) (set_entry name n l).
Proof.
  induction l as [|[x m] l IH]; simpl; [by left|].
  destruct (String.eqb x name); [by left | by right].
Qed.

(* ------------------------------------------------------------------ *)
(** ** Retention *)

Lemma insert_by_ctime_perm x l : insert_by_ctime x l ≡ₚ x :: l.
Proof.
  induction l as [|y l IH]; simpl; [done|].
  destruct (node_ctime (snd x) <=? node_ctime (snd y)); [done|].
  rewrite IH. constructor.
Qed.

Lemma sort_by_ctime_perm l : sort_by_ctime l ≡ₚ l.
Proof.
  induction l as [|x l IH]; simpl; [done|].
  by rewrite insert_by_ctime_perm, IH.
Qed.

Lemma insert_by_ctime_hd y x l :
  HdRel ctime_le y l -> ctime_le y x -> HdRel ctime_le y (insert_by_ctime x l).
Proof.
  intros Hh Hyx. destruct l as [|z l]; simpl.
  - by constructor.
  - destruct (node_ctime (snd x) <=? node_ctime (snd z)); constructor; [done|].
    by inversion Hh.
Qed.

Lemma insert_by_ctime_sorted x l : Sorted ctime_le l -> Sorted ctime_le (insert_by_ctime x l).
Proof.
  induction l as [|y l IH]; intros Hs; simpl.
  - by repeat constructor.
  - destruct (node_ctime (snd x) <=? node_ctime (snd y)) eqn:Hc.
    + constructor; [done|]. constructor. unfold ctime_le. by apply Z.leb_le.
    + inversion Hs as [|? ? Hs' Hh]; subst. constructor; [by apply IH|].
      apply insert_by_ctime_hd; [done|]. unfold ctime_le. apply Z.leb_gt in Hc. lia.
Qed.

Lemma sort_by_ctime_sorted l : Sorted ctime_le (sort_by_ctime l).
Proof.
  induction l as [|x l IH]; simpl; [constructor|]. by apply insert_by_ctime_sorted.
Qed.

Lemma strongly_sorted_app_le l1 l2 x y :
  StronglySorted ctime_le (l1 ++ l2) -> In x l1 -> In y l2 -> ctime_le x y.
Proof.
  induction l1 as [|z l1 IH]; simpl; [done|].
  intros Hs [<-|Hx] Hy; inversion Hs as [|? ? Hs' Hall]; subst.
  - rewrite Forall_forall in Hall. apply Hall. apply list_elem_of_In.
    apply in_or_app. by right.
  - by apply IH.
Qed.

Lemma NoDup_map_fst_filter (P : string * node -> bool) (l : listing) :
  NoDup (map fst l) -> NoDup (map fst (List.filter P l)).
Proof.
  induction l as [|[x n] l IH]; simpl; [done|].
  intros Hnd. inversion Hnd as [|? ? Hnin Hnd']; subst.
  destruct (P (x, n)); simpl; [|by apply IH].
  constructor; [|by apply IH].
  intros Hin. apply Hnin. apply list_elem_of_In in Hin.
  apply in_map_iff in Hin as [[x' n'] [Hx Hin]].
  apply filter_In in Hin as [Hin _]. simpl in Hx; subst.
  apply list_elem_of_In, in_map_iff. eexists. split; [|exact Hin]. done.
Qed.

Lemma NoDup_map_fst_same_name (l : listing) a b :
  NoDup (map fst l) -> In a l -> In b l -> fst a = fst b -> a = b.
Proof.
  induction l as [|c l IH]; simpl; [done|].
  intros Hnd. inversion Hnd as [|? ? Hnin Hnd']; subst.
  intros [<-|Ha] [<-|Hb] Hab; try done.
  - exfalso. apply Hnin. rewrite Hab. apply list_elem_of_In. by apply in_map.
  - exfalso. apply Hnin. rewrite <- Hab. apply list_elem_of_In. by apply in_map.
  - by apply IH.
Qed.

Lemma filter_filter_andb {A} (f g : A -> bool) (l : list A) :
  List.filter f (List.filter g l) = List.filter (fun x => g x && f x) l.
Proof.
  induction l as [|x l IH]; simpl; [done|].
  destruct (g x); simpl; [destruct (f x)|]; by rewrite ?IH.
Qed.

Lemma survives_nil (l : listing) : List.filter (survives []) l = l.
Proof.
  induction l as [|e l IH]; simpl; [done|].
  unfold survives at 1. simpl. rewrite andb_false_r. simpl. by rewrite IH.
Qed.

Lemma survives_cons n ns e :
  survives [n] e && survives ns e = survives (n :: ns) e.
Proof.
  unfold survives. simpl.
  destruct (is_file (snd e)), (String.eqb (fst e) n), (existsb _ ns); reflexivity.
Qed.

(** One turn of the loop: [try: os.remove(...) except: pass]. *)
Lemma remove_step od n st (l : listing) :
  NoDup (map fst l) -> st_fs st !! od = Some l ->
  mtry (os_remove od n) (fun _ => mret tt) st =
  (Ok tt, {| st_fs := <[od := List.filter (survives [n]) l]> (st_fs st);
             st_trace := st_trace st |}).
Proof.
  intros Hnd Hl. unfold mtry, os_remove. rewrite Hl.
  assert (Hkeep : (forall e, In e l -> survives [n] e = true) ->
                  (Ok tt, st) = (Ok tt, {| st_fs := <[od := List.filter (survives [n]) l]> (st_fs st);
                                           st_trace := st_trace st |})).
  { intros Hall. rewrite (filter_ext_in _ (survives []) l).
    - rewrite survives_nil, insert_id by done. by destruct st.
    - intros e He. rewrite Hall by done. unfold survives. simpl.
      by rewrite andb_false_r. }
  destruct (List.find (fun e => String.eqb (fst e) n) l) as [[n' nd]|] eqn:Hf.
  - apply find_some in Hf as [Hin Hn]. simpl in Hn. apply String.eqb_eq in Hn; subst n'.
    assert (Hsame : forall e, In e l -> fst e = n -> e = (n, nd)).
    { intros e He Hen. apply (NoDup_map_fst_same_name l); auto. }
    destruct nd as [c|c].
    + do 3 f_equal. unfold remove_name. apply filter_ext_in. intros e He.
      unfold survives. simpl. rewrite orb_false_r.
      destruct (String.eqb (fst e) n) eqn:Hen; simpl.
      * apply String.eqb_eq in Hen. by rewrite (Hsame e He Hen).
      * by rewrite andb_false_r.
    + unfold mret. apply Hkeep. intros e He. unfold survives. simpl.
      rewrite orb_false_r.
      destruct (String.eqb (fst e) n) eqn:Hen; [|by rewrite andb_false_r].
      apply String.eqb_eq in Hen. by rewrite (Hsame e He Hen).
  - unfold mret. apply Hkeep. intros e He. unfold survives. simpl.
    rewrite (find_none _ _ Hf e He). by rewrite andb_false_r.
Qed.

(** The whole loop over [files[:-10]]. *)
Lemma remove_loop od names st (l : listing) :
  NoDup (map fst l) -> st_fs st !! od = Some l ->
  mfor names (fun f => mtry (os_remove od f) (fun _ => mret tt)) st =
  (Ok tt, {| st_fs := <[od := List.filter (survives names) l]> (st_fs st);
             st_trace := st_trace st |}).
Proof.
  revert st l. induction names as [|n ns IH]; intros st l Hnd Hl; simpl.
  - unfold mret. rewrite survives_nil, insert_id by done. by destruct st.
  - unfold mbind. rewrite (remove_step od n st l Hnd Hl).
    rewrite (IH _ (List.filter (survives [n]) l)).
    + simpl. rewrite insert_insert_eq, filter_filter_andb.
      rewrite (filter_ext (fun x => survives [n] x && survives ns x) (survives (n :: ns)))
        by (intros; apply survives_cons).
      reflexivity.
    + by apply NoDup_map_fst_filter.
    + simpl. apply lookup_insert_eq.
Qed.

Lemma list_filter_all_true {A} (f : A -> bool) (l : list A) :
  (forall x, In x l -> f x = true) -> List.filter f l = l.
Proof.
  induction l as [|x l IH]; intros H; simpl; [done|].
  rewrite H by (by left). f_equal. apply IH. intros y Hy. apply H. by right.
Qed.

Lemma list_filter_all_false {A} (f : A -> bool) (l : list A) :
  (forall x, In x l -> f x = false) -> List.filter f l = [].
Proof.
  induction l as [|x l IH]; intros H; simpl; [done|].
  rewrite H by (by left). apply IH. intros y Hy. apply H. by right.
Qed.

Lemma perm_list_filter {A} (f : A -> bool) (l l' : list A) :
  l ≡ₚ l' -> List.filter f l ≡ₚ List.filter f l'.
Proof.
  induction 1 as [|x l l' _ IH|x y l|l l' l'' _ IH1 _ IH2]; simpl.
  - done.
  - destruct (f x); [by constructor|done].
  - destruct (f x), (f y); [constructor|done|done|done].
  - by rewrite IH1.
Qed.

Lemma perm_NoDup_map_fst (l l' : listing) :
  l ≡ₚ l' -> NoDup (map fst l) -> NoDup (map fst l').
Proof. intros Hp. apply NoDup_Permutation_proper. by rewrite Hp. Qed.

(** C3 (as the code does it): when the output directory holds more
    than 10 entries (with distinct names), the retention pass sorts them
    by ctime ascending, keeps the last 10 of that order ([kept]) and
    tries to remove the others ([old]); an entry whose removal fails
    (a directory) stays.  No [old] entry is newer than a [kept] one, every
    [kept] entry stays, and when all entries are files exactly the 10
    [kept] entries remain. *)
Theorem retention_keeps_newest od st (ents : listing) :
  st_fs st !! od = Some ents -> NoDup (map fst ents) -> (10 < List.length ents)%nat ->
  let k := (List.length ents - 10)%nat in
  let old := firstn k (sort_by_ctime ents) in
  let kept := skipn k (sort_by_ctime ents) in
  let remaining := List.filter (survives (map fst old)) ents in
  retention od st = (Ok tt, {| st_fs := <[od := remaining]> (st_fs st);
                               st_trace := st_trace st |}) /\
  List.length kept = 10%nat /\
  (forall x y, In x old -> In y kept -> node_ctime (snd x) <= node_ctime (snd y)) /\
  (forall y, In y kept -> In y remaining) /\
  (Forall (fun e => is_file (snd e) = true) ents ->
   remaining ≡ₚ kept /\ List.length remaining = 10%nat).
Proof.
  intros Hl Hnd Hlen k old kept remaining.
  pose proof (sort_by_ctime_perm ents) as Hperm.
  assert (Hsplit : sort_by_ctime ents = old ++ kept) by (symmetry; apply firstn_skipn).
  assert (Hnd_s : NoDup (map fst old ++ map fst kept)).
  { rewrite <- map_app, <- Hsplit. apply (perm_NoDup_map_fst ents); [done|done]. }
  apply NoDup_app in Hnd_s as (_ & Hdisj & _).
  assert (Hkept_len : List.length kept = 10%nat).
  { unfold kept. rewrite length_skipn, (Permutation_length Hperm). unfold k. lia. }
  assert (Hkept_surv : forall y, In y kept -> survives (map fst old) y = true).
  { intros y Hy. unfold survives.
    destruct (existsb (String.eqb (fst y)) (map fst old)) eqn:Hex;
      [|by rewrite andb_false_r].
    exfalso. apply existsb_exists in Hex as [x [Hx Hxy]].
    apply String.eqb_eq in Hxy. subst x.
    apply (Hdisj (fst y)); apply list_elem_of_In; [done|]. by apply in_map. }
  assert (Hold_gone : forall x, In x old -> is_file (snd x) = true ->
                        survives (map fst old) x = false).
  { intros x Hx Hf. unfold survives. rewrite Hf. simpl.
    apply negb_false_iff, existsb_exists. exists (fst x). split; [by apply in_map|].
    apply String.eqb_refl. }
  split; [|split; [done|split; [|split]]].
  - unfold retention, mbind, os_listdir. rewrite Hl. cbv zeta.
    rewrite length_map, (Permutation_length Hperm).
    assert (Hlt : (10 <? List.length ents)%nat = true) by (apply Nat.ltb_lt; lia).
    rewrite Hlt, firstn_map.
    apply remove_loop; done.
  - intros x y Hx Hy.
    apply (strongly_sorted_app_le old kept); [|done|done].
    rewrite <- Hsplit. apply Sorted_StronglySorted; [|apply sort_by_ctime_sorted].
    intros a b c Hab Hbc. unfold ctime_le in *. lia.
  - intros y Hy. unfold remaining. apply filter_In. split; [|by apply Hkept_surv].
    apply (Permutation_in _ Hperm). rewrite Hsplit. apply in_or_app. by right.
  - intros Hfiles.
    assert (Hr : remaining ≡ₚ kept).
    { unfold remaining. rewrite (perm_list_filter _ _ _ (Permutation_sym Hperm)).
      rewrite Hsplit, List.filter_app.
      rewrite (list_filter_all_false _ old), (list_filter_all_true _ kept); [done| |].
      - exact Hkept_surv.
      - intros x Hx. apply Hold_gone; [done|].
        rewrite List.Forall_forall in Hfiles. apply Hfiles.
        apply (Permutation_in _ Hperm). rewrite Hsplit. apply in_or_app. by left. }
    split; [done|]. by rewrite Hr.
Qed.

Lemma retention_keeps_newest_witness :
  st_fs sample_dir_state !! "/tmp/video-trimmer" = Some (sample_listing 16) /\
  NoDup (map fst (sample_listing 16)) /\ (10 < List.length (sample_listing 16))%nat /\
  retention "/tmp/video-trimmer" sample_dir_state =
  (Ok tt, {| st_fs := <["/tmp/video-trimmer" :=
                         List.filter (survives (map fst (firstn 6 (sort_by_ctime (sample_listing 16)))))
                           (sample_listing 16)]> (st_fs sample_dir_state);
             st_trace := [] |}) /\
  List.filter (survives (map fst (firstn 6 (sort_by_ctime (sample_listing 16)))))
    (sample_listing 16) ≡ₚ skipn 6 (sort_by_ctime (sample_listing 16)).
Proof.
  assert (H1 : st_fs sample_dir_state !! "/tmp/video-trimmer" = Some (sample_listing 16))
    by reflexivity.
  assert (H2 : NoDup (map fst (sample_listing 16))).
  { apply (bool_decide_unpack _). vm_compute. exact I. }
  assert (H3 : (10 < List.length (sample_listing 16))%nat) by (vm_compute; lia).
  destruct (retention_keeps_newest "/tmp/video-trimmer" sample_dir_state (sample_listing 16)
              H1 H2 H3) as (Hr & _ & _ & _ & Hall).
  split; [exact H1|]. split; [exact H2|]. split; [exact H3|]. split; [exact Hr|].
  apply Hall. repeat constructor.
Defined.

(** C3 as stated fails: removal errors are swallowed, so an old entry
    that [os.remove] refuses (a subdirectory) stays, and the directory
    keeps 11 entries. *)
Lemma retention_counterexample :
  option_map (@List.length _) (st_fs (snd (retention "/tmp/video-trimmer" sample_dir_with_subdir))
                                 !! "/tmp/video-trimmer") = Some 11%nat /\
  fst (retention "/tmp/video-trimmer" sample_dir_with_subdir) = Ok tt.
Proof. split; vm_compute; reflexivity. Qed.

(* ------------------------------------------------------------------ *)
(** ** Decimal rendering and the time parser *)

Lemma list_ascii_of_string_app (a b : string) :
  list_ascii_of_string (a +:+ b) = list_ascii_of_string a ++ list_ascii_of_string b.
Proof. induction a as [|c a IH]; simpl; [done|]. by rewrite IH. Qed.

Lemma digit_val_char (d : Z) :
  0 <= d < 10 -> digit_val (ascii_of_nat (Z.to_nat d + 48)) = Some d.
Proof.
  intros Hd. unfold digit_val.
  rewrite nat_ascii_embedding by lia.
  assert (H1 : (48 <=? Z.to_nat d + 48)%nat = true) by (apply Nat.leb_le; lia).
  assert (H2 : (Z.to_nat d + 48 <=? 57)%nat = true) by (apply Nat.leb_le; lia).
  rewrite H1, H2. simpl. f_equal. lia.
Qed.

Lemma digit_char_plain c d :
  digit_val c = Some d ->
  is_py_space c = false /\ Ascii.eqb c "+" = false /\ Ascii.eqb c "-" = false /\
  Ascii.eqb c ":" = false.
Proof.
  unfold digit_val. intros H.
  destruct ((48 <=? nat_of_ascii c)%nat && (nat_of_ascii c <=? 57)%nat) eqn:Hr;
    [|discriminate].
  apply andb_true_iff in Hr as [H1 H2]. apply Nat.leb_le in H1, H2.
  assert (Hne : forall k, (k < 48 \/ 57 < k)%nat -> (k < 256)%nat ->
                 Ascii.eqb c (ascii_of_nat k) = false).
  { intros k Hk Hk256. destruct (Ascii.eqb c (ascii_of_nat k)) eqn:E; [|done].
    apply Ascii.eqb_eq in E. subst c. exfalso.
    rewrite (nat_ascii_embedding k Hk256) in H1, H2. lia. }
  split; [|split; [|split]].
  - unfold is_py_space.
    destruct (nat_of_ascii c =? 32)%nat eqn:E1; [apply Nat.eqb_eq in E1; lia|].
    destruct (nat_of_ascii c =? 133)%nat eqn:E2; [apply Nat.eqb_eq in E2; lia|].
    destruct (nat_of_ascii c =? 160)%nat eqn:E3; [apply Nat.eqb_eq in E3; lia|].
    assert (E4 : (nat_of_ascii c <=? 13)%nat = false) by (apply Nat.leb_gt; lia).
    rewrite E4, andb_false_r. reflexivity.
  - apply (Hne 43%nat); lia.
  - apply (Hne 45%nat); lia.
  - apply (Hne 58%nat); lia.
Qed.

Lemma pos_lt_pow2_size p : Z.pos p < 2 ^ Z.of_nat (Pos.size_nat p).
Proof.
  induction p as [p IH|p IH|]; simpl Pos.size_nat; [| |reflexivity];
    rewrite Nat2Z.inj_succ, Z.pow_succ_r by lia; lia.
Qed.

Lemma pos_digits_spec f p acc :
  Z.pos p < 10 ^ Z.of_nat f ->
  exists ds,
    list_ascii_of_string (pos_digits f p acc) = ds ++ list_ascii_of_string acc /\
    ds <> [] /\ Forall (fun c => exists d, digit_val c = Some d) ds /\
    10 ^ (Z.of_nat (List.length ds) - 1) <= Z.pos p /\
    (forall a n l, digits_tail a n (ds ++ l) =
                   digits_tail (a * 10 ^ Z.of_nat (List.length ds) + Z.pos p)
                               (n + List.length ds) l).
Proof.
  revert p acc. induction f as [|f IH]; intros p acc Hp.
  - simpl in Hp. lia.
  - simpl pos_digits.
    assert (Hm : 0 <= Z.pos p mod 10 < 10) by (apply Z.mod_pos_bound; lia).
    pose proof (digit_val_char _ Hm) as Hdv.
    set (dch := ascii_of_nat (Z.to_nat (Z.pos p mod 10) + 48)) in *.
    pose proof (Z.div_mod (Z.pos p) 10 ltac:(lia)) as Hdm.
    destruct (Z.pos p / 10) as [|q|q] eqn:Hq.
    + exists [dch]. simpl. split; [done|]. split; [done|].
      split; [constructor; [by eexists|constructor]|].
      split; [lia|]. intros a n l. rewrite Hdv.
      rewrite Nat.add_1_r. f_equal. lia.
    + rewrite Nat2Z.inj_succ, Z.pow_succ_r in Hp by lia.
      destruct (IH q (String dch acc)) as (ds & Hl & Hne & Hall & Hlow & Ht); [lia|].
      exists (ds ++ [dch]). rewrite Hl. simpl. rewrite <- app_assoc. simpl.
      split; [done|]. split; [by destruct ds|].
      split; [apply Forall_app; split; [done|constructor; [by eexists|constructor]]|].
      rewrite length_app. cbn [Datatypes.length].
      assert (HL : (1 <= List.length ds)%nat) by (destruct ds; simpl; [done|lia]).
      split.
      * assert (Hpow : 10 ^ (Z.of_nat (List.length ds + 1) - 1)
                       = 10 * 10 ^ (Z.of_nat (List.length ds) - 1)).
        { replace (Z.of_nat (List.length ds + 1) - 1)
            with (Z.succ (Z.of_nat (List.length ds) - 1)) by lia.
          apply Z.pow_succ_r. lia. }
        rewrite Hpow. lia.
      * intros a n l. rewrite <- app_assoc. simpl. rewrite Ht. simpl. rewrite Hdv.
        replace (n + (List.length ds + 1))%nat with (S (n + List.length ds)) by lia.
        rewrite Nat2Z.inj_add, Z.pow_add_r by lia. rewrite Z.pow_1_r.
        f_equal. lia.
    + pose proof (Z.div_pos (Z.pos p) 10 ltac:(lia) ltac:(lia)). lia.
Qed.

Lemma py_int_digits ds (p : Z) :
  ds <> [] -> Forall (fun c => exists d, digit_val c = Some d) ds ->
  (forall a n l, digits_tail a n (ds ++ l) =
                 digits_tail (a * 10 ^ Z.of_nat (List.length ds) + p) (n + List.length ds) l) ->
  (List.length ds <= int_max_str_digits)%nat ->
  check_limit (unsigned_digits ds) = Some p.
Proof.
  intros Hne Hall Ht Hlen. destruct ds as [|c r]; [done|].
  inversion Hall as [|? ? [d Hd] _]; subst.
  specialize (Ht 0 0%nat []). rewrite !app_nil_r in Ht.
  assert (E : unsigned_digits (c :: r) = digits_tail 0 0 (c :: r))
    by (simpl; rewrite Hd; reflexivity).
  rewrite E, Ht. cbn [digits_tail]. unfold check_limit.
  apply Nat.leb_le in Hlen. rewrite Nat.add_0_l, Hlen. reflexivity.
Qed.

Lemma py_int_z_str z :
  Z.abs z < 10 ^ 4300 -> py_int (z_str z) = Some z.
Proof.
  intros Hz.
  assert (Hpos : forall p, Z.pos p < 10 ^ 4300 ->
            exists c r, list_ascii_of_string (pos_digits (Pos.size_nat p) p "") = c :: r /\
              Forall (fun c => exists d, digit_val c = Some d) (c :: r) /\
              check_limit (unsigned_digits (c :: r)) = Some (Z.pos p)).
  { intros p Hp.
    destruct (pos_digits_spec (Pos.size_nat p) p "") as (ds & Hl & Hne & Hall & Hlow & Ht).
    { pose proof (pos_lt_pow2_size p).
      assert (2 ^ Z.of_nat (Pos.size_nat p) <= 10 ^ Z.of_nat (Pos.size_nat p))
        by (apply Z.pow_le_mono_l; lia). lia. }
    rewrite app_nil_r in Hl. destruct ds as [|c r]; [done|].
    exists c, r. split; [done|]. split; [done|].
    apply py_int_digits; auto.
    assert (Hlt : 10 ^ (Z.of_nat (List.length (c :: r)) - 1) < 10 ^ 4300)
      by (eapply Z.le_lt_trans; eassumption).
    apply Z.pow_lt_mono_r_iff in Hlt; [|lia|lia]. unfold int_max_str_digits. lia. }
  destruct z as [|p|p]; [reflexivity| |].
  - destruct (Hpos p Hz) as (c & r & Hl & Hall & Hc).
    unfold py_int, z_str. rewrite Hl.
    inversion Hall as [|? ? [d Hd] _]; subst.
    destruct (digit_char_plain c d Hd) as (Hsp & Hplus & Hminus & _).
    simpl. rewrite Hsp, Hplus, Hminus. exact Hc.
  - destruct (Hpos p Hz) as (c & r & Hl & Hall & Hc).
    unfold py_int, z_str. simpl. rewrite Hl. cbn [drop_spaces]. simpl is_py_space. cbv iota. simpl Ascii.eqb. cbv iota. rewrite Hc. reflexivity.
Qed.

(** A number of at most four digits is within the digit limit. *)
Lemma below_digit_limit z : Z.abs z < 10 ^ 4 -> Z.abs z < 10 ^ 4300.
Proof.
  intros H. eapply Z.lt_le_trans; [exact H|].
  apply Z.pow_le_mono_r; lia.
Qed.

Lemma split_on_no_sep sep l :
  Forall (fun c => Ascii.eqb c sep = false) l -> split_on sep l = [l].
Proof.
  induction 1 as [|c l Hc _ IH]; simpl; [done|]. by rewrite Hc, IH.
Qed.

Lemma split_on_app_sep sep l r :
  Forall (fun c => Ascii.eqb c sep = false) l ->
  split_on sep (l ++ sep :: r) = l :: split_on sep r.
Proof.
  induction 1 as [|c l Hc _ IH]; simpl.
  - by rewrite Ascii.eqb_refl.
  - by rewrite Hc, IH.
Qed.

Lemma z_str_no_colon z :
  Z.abs z < 10 ^ 4300 ->
  Forall (fun c => Ascii.eqb c ":" = false) (list_ascii_of_string (z_str z)).
Proof.
  intros Hz.
  assert (Hd : forall p, Forall (fun c => Ascii.eqb c ":" = false)
                                (list_ascii_of_string (pos_digits (Pos.size_nat p) p ""))).
  { intros p. destruct (pos_digits_spec (Pos.size_nat p) p "") as (ds & Hl & _ & Hall & _).
    { pose proof (pos_lt_pow2_size p).
      assert (2 ^ Z.of_nat (Pos.size_nat p) <= 10 ^ Z.of_nat (Pos.size_nat p))
        by (apply Z.pow_le_mono_l; lia). lia. }
    rewrite Hl, app_nil_r. eapply Forall_impl; [exact Hall|].
    intros c [d Hc]. apply (digit_char_plain c d Hc). }
  destruct z as [|p|p]; simpl; [by repeat constructor|apply Hd|].
  constructor; [reflexivity|apply Hd].
Qed.

(** X1. [time_to_seconds] inverts decimal rendering: joining the decimal
    forms of [h], [m], [s] (signs allowed, at most 4300 digits each) with
    colons parses back to [h*3600 + m*60 + s]. *)
Theorem time_to_seconds_of_z_str h m s :
  Z.abs h < 10 ^ 4300 -> Z.abs m < 10 ^ 4300 -> Z.abs s < 10 ^ 4300 ->
  time_to_seconds (z_str h +:+ ":" +:+ z_str m +:+ ":" +:+ z_str s)
  = Ok (h * 3600 + m * 60 + s).
Proof.
  intros Hh Hm Hs. unfold time_to_seconds, py_split.
  rewrite !list_ascii_of_string_app. simpl.
  rewrite (split_on_app_sep _ _ _ (z_str_no_colon h Hh)).
  rewrite (split_on_app_sep _ _ _ (z_str_no_colon m Hm)).
  rewrite (split_on_no_sep _ _ (z_str_no_colon s Hs)). simpl.
  rewrite !string_of_list_ascii_of_string.
  by rewrite (py_int_z_str h Hh), (py_int_z_str m Hm), (py_int_z_str s Hs).
Qed.

Lemma time_to_seconds_of_z_str_witness :
  Z.abs 1 < 10 ^ 4300 /\ Z.abs 75 < 10 ^ 4300 /\ Z.abs (-3) < 10 ^ 4300 /\
  time_to_seconds (z_str 1 +:+ ":" +:+ z_str 75 +:+ ":" +:+ z_str (-3)) = Ok 8097.
Proof.
  assert (H1 : Z.abs 1 < 10 ^ 4300) by (apply below_digit_limit; reflexivity).
  assert (H2 : Z.abs 75 < 10 ^ 4300) by (apply below_digit_limit; reflexivity).
  assert (H3 : Z.abs (-3) < 10 ^ 4300) by (apply below_digit_limit; reflexivity).
  split; [exact H1|]. split; [exact H2|]. split; [exact H3|].
  exact (time_to_seconds_of_z_str 1 75 (-3) H1 H2 H3).
Defined.

(* ------------------------------------------------------------------ *)
(** ** Refusals in detail and [get_info] *)

(** X2. Once both times parse, each refusal of [trim_video] is a 400 with a
    fixed message: the probe's error text after "Error fetching video info: ",
    the [NoneType] message when the probe returns nothing, the duration when
    the end exceeds it, or "Start time must be before end time". The probe is
    the only recorded step and the filesystem is unchanged. *)
Theorem trim_video_refusal_details env r st s e :
  time_to_seconds (start_time r) = Ok s ->
  time_to_seconds (end_time r) = Ok e ->
  let st1 := {| st_fs := st_fs st; st_trace := st_trace st ++ [EvProbe (url r)] |} in
  (forall msg, env_probe env (url r) = PRaise msg ->
     trim_video env r st = (Raise (HTTPException 400 ("Error fetching video info: " +:+ msg)), st1)) /\
  (env_probe env (url r) = PReturn None ->
     trim_video env r st
     = (Raise (HTTPException 400
                 "Error fetching video info: 'NoneType' object has no attribute 'get'"), st1)) /\
  (forall info d,
     env_probe env (url r) = PReturn (Some info) ->
     dict_get info "duration" (PyInt 0) = PyInt d ->
     (d < e ->
      trim_video env r st
      = (Raise (HTTPException 400 ("End time exceeds video duration (" +:+ z_str d
                                   +:+ " seconds)")), st1)) /\
     (e <= d -> e <= s ->
      trim_video env r st = (Raise (HTTPException 400 "Start time must be before end time"), st1))).
Proof.
  intros Hs He st1. rewrite (trim_video_parsed env r st s e Hs He).
  split; [|split].
  - intros msg Hp. unfold mbind at 1. by rewrite (get_video_info_raise env (url r) st msg Hp).
  - intros Hp. unfold mbind at 1. by rewrite (get_video_info_none env (url r) st Hp).
  - intros info d Hp Hd.
    split; [intros Hlt | intros Hle Hes]; unfold mbind at 1;
      rewrite (get_video_info_dict env (url r) st info Hp); simpl; rewrite Hd;
      unfold mbind, lift, py_int_gt.
    + apply Z.ltb_lt in Hlt. by rewrite Hlt.
    + apply Z.ltb_ge in Hle. apply Z.leb_le in Hes. by rewrite Hle, Hes.
Qed.

(** X3. When both times parse and the probe returns metadata whose duration
    is not a number (neither an int nor a float: None or a string), the
    comparison [end > duration] raises [TypeError], which FastAPI answers
    with status 500. Only the probe has run and no file has changed. *)
Theorem trim_video_non_int_duration env r st s e info v :
  time_to_seconds (start_time r) = Ok s ->
  time_to_seconds (end_time r) = Ok e ->
  env_probe env (url r) = PReturn (Some info) ->
  dict_get info "duration" (PyInt 0) = v ->
  py_is_number v = false ->
  trim_video env r st
  = (Raise (TypeError ("'>' not supported between instances of 'int' and '"
                       +:+ py_type_name v +:+ "'")),
     {| st_fs := st_fs st; st_trace := st_trace st ++ [EvProbe (url r)] |}) /\
  http_status (fst (trim_video env r st)) = 500.
Proof.
  intros Hs He Hp Hd Hv.
  assert (E : trim_video env r st
              = (Raise (TypeError ("'>' not supported between instances of 'int' and '"
                                   +:+ py_type_name v +:+ "'")),
                 {| st_fs := st_fs st; st_trace := st_trace st ++ [EvProbe (url r)] |})).
  { rewrite (trim_video_parsed env r st s e Hs He). unfold mbind at 1.
    rewrite (get_video_info_dict env (url r) st info Hp). simpl. rewrite Hd.
    unfold mbind at 1, lift. by rewrite (py_int_gt_not_number e v Hv). }
  split; [exact E|]. by rewrite E.
Qed.

(** X4. [get_info] runs the probe once and touches no file. It returns the
    video info or an HTTP 400 "Error fetching video info: ...". It never
    yields a 500. *)
Theorem get_info_outcomes env u st :
  snd (get_info env u st) = {| st_fs := st_fs st; st_trace := st_trace st ++ [EvProbe u] |} /\
  ((exists vi, fst (get_info env u st) = Ok vi) \/
   (exists msg, fst (get_info env u st)
                = Raise (HTTPException 400 ("Error fetching video info: " +:+ msg)))) /\
  http_status (fst (get_info env u st)) <> 500.
Proof.
  unfold get_info.
  destruct (env_probe env u) as [msg|[info|]] eqn:Hp.
  - rewrite (get_video_info_raise env u st msg Hp). simpl.
    split; [done|]. split; [right; by eexists|done].
  - rewrite (get_video_info_dict env u st info Hp). simpl.
    split; [done|]. split; [left; by eexists|done].
  - rewrite (get_video_info_none env u st Hp). simpl.
    split; [done|]. split; [right; by eexists|done].
Qed.

(* ------------------------------------------------------------------ *)
(** ** What [trim_video] leaves untouched *)

Section Preserves.
Context (P : fsys -> Prop).

Lemma fsp_ret {A} (a : A) : fs_preserves P (mret a).
Proof. by intros s. Qed.

Lemma fsp_raise {A} e : fs_preserves P (@mraise A e).
Proof. by intros s. Qed.

Lemma fsp_lift {A} (r : res A) : fs_preserves P (lift r).
Proof. by intros s. Qed.

Lemma fsp_emit ev : fs_preserves P (emit ev).
Proof. by intros s. Qed.

Lemma fsp_listdir d : fs_preserves P (os_listdir d).
Proof. intros s. unfold os_listdir. by destruct (st_fs s !! d). Qed.

Lemma fsp_modify f : (forall fs, P fs -> P (f fs)) -> fs_preserves P (modify_fs f).
Proof. intros Hf s. apply Hf. Qed.

Lemma fsp_remove d n :
  (forall fs l, fs !! d = Some l -> P fs -> P (<[d := remove_name n l]> fs)) ->
  fs_preserves P (os_remove d n).
Proof.
  intros Hr s Hs. unfold os_remove.
  destruct (st_fs s !! d) as [l|] eqn:Hl; [|done].
  destruct (List.find _ l) as [[? []]|]; simpl; [by apply Hr|done|done].
Qed.

Lemma fsp_bind {A B} (m : M A) (k : A -> M B) :
  fs_preserves P m -> (forall a, fs_preserves P (k a)) -> fs_preserves P (mbind m k).
Proof.
  intros Hm Hk s Hs. unfold mbind. specialize (Hm s Hs).
  destruct (m s) as [[a|e] s']; simpl in *; [by apply Hk|done].
Qed.

Lemma fsp_try {A} (m : M A) h :
  fs_preserves P m -> (forall e, fs_preserves P (h e)) -> fs_preserves P (mtry m h).
Proof.
  intros Hm Hh s Hs. unfold mtry. specialize (Hm s Hs).
  destruct (m s) as [[a|e] s']; simpl in *; [done|by apply Hh].
Qed.

Lemma fsp_finally {A} (m : M A) c :
  fs_preserves P m -> fs_preserves P c -> fs_preserves P (mfinally m c).
Proof.
  intros Hm Hc s Hs. unfold mfinally. specialize (Hm s Hs).
  destruct (m s) as [r s']. specialize (Hc s' Hm).
  destruct (c s') as [[] s'']; done.
Qed.

Lemma fsp_for {A} (xs : list A) f :
  (forall x, fs_preserves P (f x)) -> fs_preserves P (mfor xs f).
Proof.
  intros Hf. induction xs as [|x xs IH]; simpl; [apply fsp_ret|].
  by apply fsp_bind.
Qed.

End Preserves.

Create HintDb fsp_db.
Global Hint Resolve fsp_ret fsp_raise fsp_lift fsp_emit fsp_listdir : fsp_db.

(** Steps through a definition's body, splitting its conditionals. *)
Ltac fsp_steps :=
  repeat first
    [ progress (eauto with fsp_db)
    | apply fsp_bind; [|intro]
    | apply fsp_try; [|intro]
    | apply fsp_finally
    | apply fsp_for; intro
    | match goal with
      | |- fs_preserves _ (if ?b then _ else _) => destruct b
      | |- fs_preserves _ (match ?x with _ => _ end) => destruct x
      | |- fs_preserves _ (let _ := _ in _) => cbv zeta
      end ].

Lemma fsp_get_video_info P env u : fs_preserves P (get_video_info env u).
Proof. unfold get_video_info. fsp_steps. Qed.

Lemma fsp_download_and_trim P env u a b od on :
  (forall fs v, P fs -> P (<[env_tmpname env := v]> fs)) ->
  (forall fs, P fs -> P (delete (env_tmpname env) fs)) ->
  (forall fs l n, fs !! od = Some l -> P fs -> P (<[od := set_entry on n l]> fs)) ->
  fs_preserves P (download_and_trim_video env u a b od on).
Proof.
  intros Hins Hdel Hset.
  unfold download_and_trim_video, download_and_trim_body, ydl_download, ffmpeg_run,
    write_file.
  fsp_steps; apply fsp_modify; intros fs Hfs;
    first [ by apply Hins | by apply Hdel
          | destruct (fs !! od) eqn:Hl; [by apply Hset|done] ].
Qed.

Lemma fsp_retention P od :
  (forall fs l n, fs !! od = Some l -> P fs -> P (<[od := remove_name n l]> fs)) ->
  fs_preserves P (retention od).
Proof.
  intros Hr. unfold retention. fsp_steps. apply fsp_remove. intros fs l Hl Hfs. by apply Hr.
Qed.

Lemma fsp_trim_video P env r :
  (forall fs, fs !! output_dir_of env = None -> P fs -> P (<[output_dir_of env := []]> fs)) ->
  (forall a b, fs_preserves P (download_and_trim_video env (url r) a b (output_dir_of env)
                                 (output_filename_of env))) ->
  (forall fs l n, fs !! output_dir_of env = Some l -> P fs ->
                  P (<[output_dir_of env := remove_name n l]> fs)) ->
  fs_preserves P (trim_video env r).
Proof.
  intros Hmk Hdtv Hrm. unfold trim_video, os_makedirs.
  fsp_steps;
    first [ apply fsp_get_video_info
          | by apply fsp_retention
          | apply fsp_remove; intros fs l Hl Hfs; by apply Hrm
          | apply fsp_modify; intros fs Hfs;
            destruct (fs !! output_dir_of env) eqn:Hl; [done|by apply Hmk] ].
Qed.

Lemma dtv_tmp_gone env u a b od on st :
  st_fs (snd (download_and_trim_video env u a b od on st)) !! env_tmpname env = None.
Proof.
  unfold download_and_trim_video, mfinally, mbind at 1, modify_fs at 1. simpl.
  destruct (mtry _ _ _) as [r s']. simpl. apply lookup_delete_eq.
Qed.

(** X5. When the temporary directory does not exist beforehand, [trim_video]
    leaves every filesystem entry except the output directory as it was.
    This includes the temporary directory, which is absent again afterwards. *)
Theorem trim_video_frame env r st k :
  st_fs st !! env_tmpname env = None ->
  k <> output_dir_of env ->
  st_fs (snd (trim_video env r st)) !! k = st_fs st !! k.
Proof.
  intros Htmp Hk.
  destruct (decide (k = env_tmpname env)) as [->|Hkt].
  - rewrite Htmp.
    apply (fsp_trim_video (fun fs => fs !! env_tmpname env = None)); [| | |done].
    + intros fs _ Hfs. by rewrite lookup_insert_ne.
    + intros a b s' _. apply dtv_tmp_gone.
    + intros fs l n _ Hfs. by rewrite lookup_insert_ne.
  - apply (fsp_trim_video (fun fs => fs !! k = st_fs st !! k)); [| | |done].
    + intros fs _ Hfs. by rewrite lookup_insert_ne.
    + intros a b. apply fsp_download_and_trim.
      * intros fs v Hfs. by rewrite lookup_insert_ne.
      * intros fs Hfs. by rewrite lookup_delete_ne.
      * intros fs l n _ Hfs. by rewrite lookup_insert_ne.
    + intros fs l n _ Hfs. by rewrite lookup_insert_ne.
Qed.

(* ------------------------------------------------------------------ *)
(** ** Names and retention *)

Lemma set_entry_NoDup name n (l : listing) :
  NoDup (map fst l) -> NoDup (map fst (set_entry name n l)).
Proof.
  induction l as [|[x m] l IH]; simpl; intros Hnd.
  - repeat constructor. set_solver.
  - inversion Hnd as [|? ? Hnin Hnd']; subst.
    destruct (String.eqb x name) eqn:Hx; simpl.
    + apply String.eqb_eq in Hx. subst. by constructor.
    + constructor; [|by apply IH].
      intros Hin. apply Hnin.
      assert (Hsub : forall y, y ∈ map fst (set_entry name n l) -> y = name \/ y ∈ map fst l).
      { clear. induction l as [|[z k] l IH]; simpl; intros y Hy.
        - set_solver.
        - destruct (String.eqb z name) eqn:Hz; simpl in Hy.
          + apply String.eqb_eq in Hz. subst. set_solver.
          + apply elem_of_cons in Hy as [->|Hy]; [set_solver|].
            destruct (IH y Hy); set_solver. }
      destruct (Hsub x Hin) as [->|?]; [|done].
      by rewrite String.eqb_refl in Hx.
Qed.

Lemma set_entry_In_inv name n (l : listing) y :
  In y (set_entry name n l) -> y = (name, n) \/ In y l.
Proof.
  induction l as [|[x m] l IH]; simpl.
  - intros [<-|[]]. by left.
  - destruct (String.eqb x name); simpl.
    + intros [<-|Hy]; [by left|by right; right].
    + intros [<-|Hy]; [by right; left|]. destruct (IH Hy); [by left|by right; right].
Qed.

(** Every turn of the removal loop answers [Ok] and leaves the trace. *)
Lemma remove_loop_ok od names st :
  fst (mfor names (fun f => mtry (os_remove od f) (fun _ => mret tt)) st) = Ok tt /\
  st_trace (snd (mfor names (fun f => mtry (os_remove od f) (fun _ => mret tt)) st))
  = st_trace st.
Proof.
  revert st. induction names as [|n ns IH]; intros st; simpl; [done|].
  assert (Hstep : exists st', mtry (os_remove od n) (fun _ => mret tt) st = (Ok tt, st') /\
                              st_trace st' = st_trace st).
  { unfold mtry, os_remove.
    destruct (st_fs st !! od) as [l|]; [|by eexists].
    destruct (List.find _ l) as [[? []]|]; by eexists. }
  destruct Hstep as (st' & Hst & Htr). unfold mbind. rewrite Hst, <- Htr. apply IH.
Qed.

Lemma retention_ok od st l :
  st_fs st !! od = Some l ->
  fst (retention od st) = Ok tt /\ st_trace (snd (retention od st)) = st_trace st.
Proof.
  intros Hl. unfold retention, mbind, os_listdir. rewrite Hl. cbv zeta.
  destruct (10 <? _)%nat; [apply remove_loop_ok|done].
Qed.

(** X7. Retention does nothing when the directory holds at most 10 entries. *)
Theorem retention_small_dir od st l :
  st_fs st !! od = Some l -> (List.length l <= 10)%nat ->
  retention od st = (Ok tt, st).
Proof.
  intros Hl Hlen. unfold retention, mbind at 1, os_listdir. rewrite Hl. cbv zeta.
  rewrite length_map, (Permutation_length (sort_by_ctime_perm l)).
  assert (H : (10 <? List.length l)%nat = false) by (apply Nat.ltb_ge; lia).
  by rewrite H.
Qed.

(** X8. On a listing without duplicate names, retention returns normally,
    leaves the trace alone, and only drops entries from the listing. Every
    entry that is not a file is kept. *)
Theorem retention_only_removes_files od st l :
  st_fs st !! od = Some l -> NoDup (map fst l) ->
  exists l',
    retention od st = (Ok tt, {| st_fs := <[od := l']> (st_fs st); st_trace := st_trace st |}) /\
    (forall x, In x l' -> In x l) /\
    (forall x, In x l -> is_file (snd x) = false -> In x l').
Proof.
  intros Hl Hnd.
  destruct (Nat.le_gt_cases (List.length l) 10) as [Hle|Hgt].
  - exists l. rewrite (retention_small_dir od st l Hl Hle), insert_id by done.
    split; [by destruct st|]. split; intros x Hx; done.
  - exists (List.filter (survives (map fst (firstn (List.length l - 10)
                                               (sort_by_ctime l)))) l).
    split; [|split].
    + unfold retention, mbind at 1, os_listdir. rewrite Hl. cbv zeta.
      rewrite length_map, (Permutation_length (sort_by_ctime_perm l)).
      assert (H : (10 <? List.length l)%nat = true) by (apply Nat.ltb_lt; lia).
      rewrite H, firstn_map. by apply remove_loop.
    + intros x Hx. by apply filter_In in Hx as [Hx _].
    + intros x Hx Hd. apply filter_In. split; [done|].
      unfold survives. by rewrite Hd.
Qed.

(* ------------------------------------------------------------------ *)
(** ** The successful run *)

Lemma mbind_ok {A B} (m : M A) (k : A -> M B) s a s' :
  m s = (Ok a, s') -> mbind m k s = k a s'.
Proof. intros H. unfold mbind. by rewrite H. Qed.

Lemma dtv_keeps_dir env u a b od on st :
  env_tmpname env <> od -> st_fs st !! od <> None ->
  st_fs (snd (download_and_trim_video env u a b od on st)) !! od <> None.
Proof.
  intros Hne. apply (fsp_download_and_trim (fun fs => fs !! od <> None)).
  - intros fs v Hfs. by rewrite lookup_insert_ne.
  - intros fs Hfs. by rewrite lookup_delete_ne.
  - intros fs l n _ _. by rewrite lookup_insert_eq.
Qed.

Lemma st_before_has_dir env r st :
  st_fs (st_before_orchestrator env r st) !! output_dir_of env <> None.
Proof.
  unfold st_before_orchestrator. simpl.
  destruct (st_fs st !! output_dir_of env) eqn:Hl; [by rewrite Hl|].
  by rewrite lookup_insert_eq.
Qed.

(** The run of a request that passes validation and whose tools succeed. *)
Lemma trim_video_ok_run env r st s e rc files vf :
  passes_validation env r s e ->
  env_tmpname env <> output_dir_of env ->
  env_download env (url r) = DlDone rc files ->
  List.find (fun f => String.prefix "video." f) files = Some vf ->
  ff_code (env_ffmpeg env (path_join (env_tmpname env) vf) s (e - s)
             (path_join (output_dir_of env) (output_filename_of env))) = 0 ->
  fst (trim_video env r st)
  = Ok {| fr_path := path_join (output_dir_of env) (output_filename_of env);
          fr_media_type := "video/mp4"; fr_filename := output_filename_of env |} /\
  st_trace (snd (trim_video env r st))
  = st_trace st ++ [EvProbe (url r);
                    EvDownload (url r) (path_join (env_tmpname env) "video.%(ext)s");
                    EvFfmpeg (path_join (env_tmpname env) vf) s (e - s)
                             (path_join (output_dir_of env) (output_filename_of env))].
Proof.
  intros Hv Hne Hd Hf Hcode. pose proof Hv as (Hs & He & _).
  pose proof (dtv_reaches_ffmpeg env (url r) (start_time r) (end_time r)
                (output_dir_of env) (output_filename_of env)
                (st_before_orchestrator env r st) rc files vf s e Hd Hf Hs He) as Hrun.
  cbv zeta in Hrun. rewrite Hcode, Z.eqb_refl in Hrun.
  pose proof (dtv_keeps_dir env (url r) (start_time r) (end_time r)
                (output_dir_of env) (output_filename_of env)
                (st_before_orchestrator env r st) Hne (st_before_has_dir env r st)) as Hdir.
  rewrite Hrun in Hdir. simpl in Hdir.
  destruct (_ !! output_dir_of env) as [l|] eqn:Hl in Hdir; [|done].
  rewrite (trim_video_validated env r st s e Hv).
  unfold st_before_orchestrator in Hrun.
  rewrite (mbind_ok _ _ _ _ _ Hrun). cbv beta.
  match goal with
  | |- context [mbind (retention ?od) _ ?S] =>
      destruct (retention_ok od S l Hl) as [Hr1 Hr2];
      destruct (retention od S) as [r3 S3] eqn:E3
  end.
  simpl in Hr1, Hr2. subst r3.
  rewrite (mbind_ok _ _ _ _ _ E3). simpl. split; [done|].
  rewrite Hr2. simpl. by rewrite <- app_assoc.
Qed.

(** X9. A request that passes validation, gets a download with a [video.*]
    file, and gets ffmpeg exit status 0 yields the response for
    [output_dir/output_filename]. The recorded steps are exactly the probe,
    the download into the temporary directory, and one ffmpeg run from
    [start] for [end - start] seconds. *)
Theorem trim_video_success env r st s e rc files vf :
  passes_validation env r s e ->
  env_tmpname env <> output_dir_of env ->
  env_download env (url r) = DlDone rc files ->
  List.find (fun f => String.prefix "video." f) files = Some vf ->
  ff_code (env_ffmpeg env (path_join (env_tmpname env) vf) s (e - s)
             (path_join (output_dir_of env) (output_filename_of env))) = 0 ->
  fst (trim_video env r st)
  = Ok {| fr_path := path_join (output_dir_of env) (output_filename_of env);
          fr_media_type := "video/mp4"; fr_filename := output_filename_of env |} /\
  st_trace (snd (trim_video env r st))
  = st_trace st ++ [EvProbe (url r);
                    EvDownload (url r) (path_join (env_tmpname env) "video.%(ext)s");
                    EvFfmpeg (path_join (env_tmpname env) vf) s (e - s)
                             (path_join (output_dir_of env) (output_filename_of env))].
Proof.
  intros Hv Hne Hd Hf Hcode.
  exact (trim_video_ok_run env r st s e rc files vf Hv Hne Hd Hf Hcode).
Qed.

(** C4 (as the code does it): once a request passes validation, a
    download that raises makes the endpoint raise a 500 error whose
    detail is "Error processing video: " and the exception's text; the
    output directory is as before.  A media-tool run that exits with
    failure makes it raise a 500 error whose detail is ffmpeg-python's
    fixed sentence, not the tool's output, and a file the tool wrote at
    the output path before failing is not removed.  A download that
    returns a failure status without raising (yt-dlp's [ignoreerrors])
    is not surfaced: if a [video.*] file is left and the media tool
    succeeds, the file response is returned. *)
Theorem tool_failure_no_response env r st s e :
  passes_validation env r s e ->
  env_tmpname env <> output_dir_of env ->
  (forall msg, env_download env (url r) = DlRaise msg ->
     fst (trim_video env r st) = Raise (HTTPException 500 ("Error processing video: " +:+ msg)) /\
     st_fs (snd (trim_video env r st)) !! output_dir_of env
       = Some (match st_fs st !! output_dir_of env with Some l => l | None => [] end) /\
     st_trace (snd (trim_video env r st))
       = st_trace st ++ [EvProbe (url r);
                         EvDownload (url r) (path_join (env_tmpname env) "video.%(ext)s")]) /\
  (forall rc files vf,
     env_download env (url r) = DlDone rc files ->
     List.find (fun f => String.prefix "video." f) files = Some vf ->
     let o := env_ffmpeg env (path_join (env_tmpname env) vf) s (e - s)
                (path_join (output_dir_of env) (output_filename_of env)) in
     ff_code o <> 0 ->
     fst (trim_video env r st)
       = Raise (HTTPException 500
                  "Error processing video: ffmpeg error (see stderr output for detail)") /\
     http_status (fst (trim_video env r st)) = 500 /\
     (ff_writes o = true ->
      exists l, st_fs (snd (trim_video env r st)) !! output_dir_of env = Some l /\
                In (output_filename_of env, NFile (env_clock env)) l)) /\
  (forall rc files vf,
     env_download env (url r) = DlDone rc files -> rc <> 0 ->
     List.find (fun f => String.prefix "video." f) files = Some vf ->
     ff_code (env_ffmpeg env (path_join (env_tmpname env) vf) s (e - s)
                (path_join (output_dir_of env) (output_filename_of env))) = 0 ->
     fst (trim_video env r st)
     = Ok {| fr_path := path_join (output_dir_of env) (output_filename_of env);
             fr_media_type := "video/mp4"; fr_filename := output_filename_of env |}).
Proof.
  intros Hv Hne. pose proof Hv as (Hs & He & _).
  split; [|split].
  - intros msg Hd.
    rewrite (trim_video_orchestrator_raises env r st s e _ _ Hv
               (dtv_download_raises _ _ _ _ _ _ _ msg Hd)).
    unfold st_before_orchestrator. simpl.
    split; [done|]. split; [|by rewrite <- app_assoc].
    rewrite lookup_delete_ne, lookup_insert_ne by done.
    destruct (st_fs st !! output_dir_of env) eqn:Ho; [done|].
    by rewrite lookup_insert_eq.
  - intros rc files vf Hd Hf o Hcode.
    pose proof (dtv_reaches_ffmpeg env (url r) (start_time r) (end_time r)
                  (output_dir_of env) (output_filename_of env)
                  (st_before_orchestrator env r st) rc files vf s e Hd Hf Hs He) as Hrun.
    cbv zeta in Hrun. fold o in Hrun. apply Z.eqb_neq in Hcode. rewrite Hcode in Hrun.
    rewrite (trim_video_orchestrator_raises env r st s e _ _ Hv Hrun). simpl.
    split; [done|]. split; [done|].
    intros Hw. rewrite Hw.
    unfold st_before_orchestrator. simpl.
    rewrite lookup_insert_ne, lookup_insert_ne by done.
    destruct (st_fs st !! output_dir_of env) as [l0|] eqn:Ho.
    + rewrite Ho. eexists. rewrite lookup_delete_ne, lookup_insert_eq by done.
      split; [done|]. apply set_entry_in.
    + rewrite lookup_insert_eq. eexists. rewrite lookup_delete_ne, lookup_insert_eq by done.
      split; [done|]. apply set_entry_in.
  - intros rc files vf Hd _ Hf Hcode.
    by destruct (trim_video_ok_run env r st s e rc files vf Hv Hne Hd Hf Hcode) as [H _].
Qed.

Lemma tool_failure_no_response_witness :
  fst (trim_video (sample_env 1 true) (req "00:00:05" "00:00:10") st0)
  = Raise (HTTPException 500 "Error processing video: ffmpeg error (see stderr output for detail)") /\
  fst (trim_video sample_env_partial_download (req "00:00:05" "00:00:10") st0)
  = Ok {| fr_path := path_join (output_dir_of sample_env_partial_download)
                               (output_filename_of sample_env_partial_download);
          fr_media_type := "video/mp4";
          fr_filename := output_filename_of sample_env_partial_download |}.
Proof.
  split.
  - assert (Hv : passes_validation (sample_env 1 true) (req "00:00:05" "00:00:10") 5 10).
    { split; [reflexivity|]. split; [reflexivity|]. split; [lia|].
      exists sample_meta. split; reflexivity. }
    destruct (tool_failure_no_response (sample_env 1 true) (req "00:00:05" "00:00:10") st0 5 10
                Hv ltac:(vm_compute; discriminate)) as (_ & H & _).
    cbv zeta in H.
    destruct (H 0 ["video.mp4"] "video.mp4" eq_refl eq_refl ltac:(vm_compute; discriminate))
      as [H1 _].
    exact H1.
  - assert (Hv : passes_validation sample_env_partial_download (req "00:00:05" "00:00:10") 5 10).
    { split; [reflexivity|]. split; [reflexivity|]. split; [lia|].
      exists sample_meta. split; reflexivity. }
    destruct (tool_failure_no_response sample_env_partial_download (req "00:00:05" "00:00:10")
                st0 5 10 Hv ltac:(vm_compute; discriminate)) as (_ & _ & H).
    apply (H 1 ["video.f137.mp4.part"] "video.f137.mp4.part"); try reflexivity.
    discriminate.
Defined.

(** C4 as stated fails: a media-tool run that fails after writing the
    output file leaves that file at the output path, and the 500 detail
    carries ffmpeg-python's fixed sentence, not the tool's stderr; and a
    download failure that yt-dlp swallows ([ignoreerrors], status 1)
    leaving a partial [video.*] file ends in a file response. *)
Lemma tool_failure_counterexample :
  fst (trim_video (sample_env 1 true) (req "00:00:05" "00:00:10") st0)
  = Raise (HTTPException 500 "Error processing video: ffmpeg error (see stderr output for detail)") /\
  st_fs (snd (trim_video (sample_env 1 true) (req "00:00:05" "00:00:10") st0))
    !! "/tmp/video-trimmer" = Some [("trimmed_video_20261018_120000.mp4", NFile 100)] /\
  http_status (fst (trim_video sample_env_partial_download (req "00:00:05" "00:00:10") st0)) = 200.
Proof. repeat split; vm_compute; reflexivity. Qed.

(** X10. Conversely, every successful response comes from such a run: both
    times parse with start < end, the probe reports a duration for which
    [end > duration] is [False] (an int or float at least the end), the
    download leaves a [video.*] file, and ffmpeg exits with status 0. *)
Theorem trim_video_ok_inv env r st resp :
  fst (trim_video env r st) = Ok resp ->
  exists s e rc files vf,
    passes_validation env r s e /\
    env_download env (url r) = DlDone rc files /\
    List.find (fun f => String.prefix "video." f) files = Some vf /\
    ff_code (env_ffmpeg env (path_join (env_tmpname env) vf) s (e - s)
               (path_join (output_dir_of env) (output_filename_of env))) = 0.
Proof.
  intros Hok.
  destruct (time_to_seconds (start_time r)) as [s|ex] eqn:Hs.
  2: { pose proof (time_to_seconds_value_error _ _ Hs) as ->.
       rewrite (trim_video_bad_time env r st (or_introl Hs)) in Hok. discriminate. }
  destruct (time_to_seconds (end_time r)) as [e|ex] eqn:He.
  2: { pose proof (time_to_seconds_value_error _ _ He) as ->.
       rewrite (trim_video_bad_time env r st (or_intror He)) in Hok. discriminate. }
  assert (Hv : passes_validation env r s e).
  { pose proof Hok as Hok1.
    rewrite (trim_video_parsed env r st s e Hs He) in Hok1. unfold mbind at 1 in Hok1.
    destruct (env_probe env (url r)) as [msg|[info|]] eqn:Hp.
    - rewrite (get_video_info_raise env (url r) st msg Hp) in Hok1. discriminate.
    - rewrite (get_video_info_dict env (url r) st info Hp) in Hok1. simpl in Hok1.
      unfold mbind at 1, lift in Hok1.
      destruct (py_int_gt e (dict_get info "duration" (PyInt 0))) as [[|]|ex] eqn:Hgt;
        [discriminate| |discriminate].
      destruct (e <=? s) eqn:Hes; [discriminate|].
      apply Z.leb_gt in Hes.
      split; [done|]. split; [done|]. split; [done|]. by exists info.
    - rewrite (get_video_info_none env (url r) st Hp) in Hok1. discriminate. }
  exists s, e.
  assert (Hraise : forall ex st', download_and_trim_video env (url r) (start_time r) (end_time r)
                     (output_dir_of env) (output_filename_of env)
                     (st_before_orchestrator env r st) = (Raise ex, st') -> False).
  { intros ex st' Hrun.
    rewrite (trim_video_orchestrator_raises env r st s e ex st' Hv Hrun) in Hok.
    discriminate. }
  destruct (env_download env (url r)) as [msg|rc files] eqn:Hd.
  { exfalso. eapply Hraise, dtv_download_raises, Hd. }
  destruct (List.find (fun f => String.prefix "video." f) files) as [vf|] eqn:Hf.
  2: { exfalso. eapply Hraise, dtv_no_video_file; [exact Hd|exact Hf]. }
  exists rc, files, vf. split; [done|]. split; [done|]. split; [done|].
  destruct (Z.eqb (ff_code (env_ffmpeg env (path_join (env_tmpname env) vf) s (e - s)
              (path_join (output_dir_of env) (output_filename_of env)))) 0) eqn:Hc.
  - by apply Z.eqb_eq.
  - exfalso. pose proof Hv as (Hs' & He' & _).
    pose proof (dtv_reaches_ffmpeg env (url r) (start_time r) (end_time r)
                  (output_dir_of env) (output_filename_of env)
                  (st_before_orchestrator env r st) rc files vf s e Hd Hf Hs' He') as Hrun.
    cbv zeta in Hrun. rewrite Hc in Hrun. eapply Hraise, Hrun.
Qed.

(* ------------------------------------------------------------------ *)
(** ** The response file survives retention *)

(** The strictly newest entry is never among the removed ones. *)
Lemma retention_keeps_latest od st l x :
  st_fs st !! od = Some l -> NoDup (map fst l) -> In x l ->
  (forall y, In y l -> y <> x -> node_ctime (snd y) < node_ctime (snd x)) ->
  exists l', st_fs (snd (retention od st)) !! od = Some l' /\ In x l'.
Proof.
  intros Hl Hnd Hx Hnew.
  destruct (Nat.le_gt_cases (List.length l) 10) as [Hle|Hgt].
  { exists l. by rewrite (retention_small_dir od st l Hl Hle). }
  set (k := (List.length l - 10)%nat).
  set (old := firstn k (sort_by_ctime l)).
  set (kept := skipn k (sort_by_ctime l)).
  pose proof (sort_by_ctime_perm l) as Hperm.
  assert (Hsplit : sort_by_ctime l = old ++ kept) by (symmetry; apply firstn_skipn).
  assert (Hnd_s : NoDup (map fst old ++ map fst kept)).
  { rewrite <- map_app, <- Hsplit. apply (perm_NoDup_map_fst l); [done|done]. }
  apply NoDup_app in Hnd_s as (_ & Hdisj & _).
  exists (List.filter (survives (map fst old)) l). split.
  - unfold retention, mbind at 1, os_listdir. rewrite Hl. cbv zeta.
    rewrite length_map, (Permutation_length Hperm).
    assert (H : (10 <? List.length l)%nat = true) by (apply Nat.ltb_lt; lia).
    rewrite H, firstn_map. rewrite (remove_loop od _ st l Hnd Hl). simpl.
    apply lookup_insert_eq.
  - apply filter_In. split; [done|]. unfold survives.
    destruct (existsb (String.eqb (fst x)) (map fst old)) eqn:Hex;
      [|by rewrite andb_false_r].
    exfalso. apply existsb_exists in Hex as [nm [Hnm Heq]].
    apply String.eqb_eq in Heq. subst nm.
    apply in_map_iff in Hnm as [w [Hw Hwold]].
    assert (Hwl : In w l).
    { apply (Permutation_in _ Hperm). rewrite Hsplit. apply in_or_app. by left. }
    assert (w = x) as -> by (apply (NoDup_map_fst_same_name l); auto).
    assert (Hkl : (0 < List.length kept)%nat).
    { unfold kept. rewrite length_skipn, (Permutation_length Hperm). unfold k. lia. }
    assert (Hz : exists z, In z kept) by
      (destruct kept as [|z0 kr]; [simpl in Hkl; lia | exists z0; by left]).
    destruct Hz as [z Hz].
    assert (Hzl : In z l).
    { apply (Permutation_in _ Hperm). rewrite Hsplit. apply in_or_app. right. done. }
    assert (Hzx : z <> x).
    { intros ->. apply (Hdisj (fst x)); apply list_elem_of_In; apply in_map; [done|]. done. }
    assert (Hle : ctime_le x z).
    { apply (strongly_sorted_app_le old kept); [|done|done].
      rewrite <- Hsplit. apply Sorted_StronglySorted; [|apply sort_by_ctime_sorted].
      intros a b c Hab Hbc. unfold ctime_le in *. lia. }
    unfold ctime_le in Hle. specialize (Hnew z Hzl Hzx). lia.
Qed.

(** X11. On success, if ffmpeg writes its output, the output file (with
    the current time as creation time) is still in the output directory after
    retention. This holds when the directory's earlier entries have distinct
    names and are older. *)
Theorem trim_video_response_file_kept env r st s e rc files vf :
  passes_validation env r s e ->
  env_tmpname env <> output_dir_of env ->
  env_download env (url r) = DlDone rc files ->
  List.find (fun f => String.prefix "video." f) files = Some vf ->
  let o := env_ffmpeg env (path_join (env_tmpname env) vf) s (e - s)
             (path_join (output_dir_of env) (output_filename_of env)) in
  ff_code o = 0 -> ff_writes o = true ->
  (forall l, st_fs st !! output_dir_of env = Some l ->
     NoDup (map fst l) /\ Forall (fun y => node_ctime (snd y) < env_clock env) l) ->
  exists l', st_fs (snd (trim_video env r st)) !! output_dir_of env = Some l' /\
             In (output_filename_of env, NFile (env_clock env)) l'.
Proof.
  intros Hv Hne Hd Hf o Hcode Hw Hold. pose proof Hv as (Hs & He & _).
  pose proof (dtv_reaches_ffmpeg env (url r) (start_time r) (end_time r)
                (output_dir_of env) (output_filename_of env)
                (st_before_orchestrator env r st) rc files vf s e Hd Hf Hs He) as Hrun.
  cbv zeta in Hrun. fold o in Hrun. rewrite Hcode, Z.eqb_refl, Hw in Hrun.
  set (L0 := match st_fs st !! output_dir_of env with Some l => l | None => [] end).
  assert (HL0 : NoDup (map fst L0) /\
                Forall (fun y => node_ctime (snd y) < env_clock env) L0).
  { unfold L0. destruct (st_fs st !! output_dir_of env) eqn:Hl; [by apply Hold|].
    split; constructor. }
  destruct HL0 as [Hnd0 Hage0].
  rewrite (trim_video_validated env r st s e Hv).
  unfold st_before_orchestrator in Hrun.
  rewrite (mbind_ok _ _ _ _ _ Hrun). cbv beta.
  match goal with
  | |- context [mbind (retention ?od) _ ?S] =>
      assert (HS : st_fs S !! od = Some (set_entry (output_filename_of env)
                                           (NFile (env_clock env)) L0));
      [| destruct (retention_keeps_latest od S _ (output_filename_of env, NFile (env_clock env))
                     HS) as (l' & Hl' & Hin);
         [ by apply set_entry_NoDup
         | apply set_entry_in
         | intros y Hy Hyx; destruct (set_entry_In_inv _ _ _ _ Hy) as [->|Hy0]; [done|];
           rewrite List.Forall_forall in Hage0; by apply Hage0
         | destruct (retention od S) as [r3 S3] eqn:E3;
           destruct (retention_ok od S _ HS) as [Hr1 _];
           rewrite E3 in Hr1; simpl in Hr1; subst r3;
           rewrite (mbind_ok _ _ _ _ _ E3); simpl in *; by exists l' ] ]
  end.
  simpl. rewrite lookup_delete_ne by done.
  rewrite lookup_insert_ne, lookup_insert_ne by done. simpl.
  unfold L0. destruct (st_fs st !! output_dir_of env) eqn:Hl.
  - rewrite Hl. by rewrite lookup_insert_eq.
  - rewrite lookup_insert_eq. by rewrite lookup_insert_eq.
Qed.

(* ------------------------------------------------------------------ *)
(** ** Witnesses of the further properties *)

Lemma trim_video_refusal_details_witness :
  time_to_seconds "00:00:30" = Ok 30 /\ time_to_seconds "00:02:00" = Ok 120 /\
  trim_video (sample_env 0 true) (req "00:00:30" "00:02:00") st0
  = (Raise (HTTPException 400 ("End time exceeds video duration (" +:+ z_str 60
                                +:+ " seconds)")),
     {| st_fs := st_fs st0; st_trace := st_trace st0 ++ [EvProbe "https://example.com/v"] |}).
Proof.
  assert (Hs : time_to_seconds "00:00:30" = Ok 30) by reflexivity.
  assert (He : time_to_seconds "00:02:00" = Ok 120) by reflexivity.
  split; [exact Hs|]. split; [exact He|].
  destruct (trim_video_refusal_details (sample_env 0 true) (req "00:00:30" "00:02:00") st0
              30 120 Hs He) as (_ & _ & H).
  apply (H sample_meta 60); [reflexivity|reflexivity|lia].
Defined.

Lemma trim_video_non_int_duration_witness :
  http_status (fst (trim_video sample_env_no_duration (req "00:00:05" "00:00:10") st0)) = 500.
Proof.
  apply (trim_video_non_int_duration sample_env_no_duration (req "00:00:05" "00:00:10") st0
           5 10 {[ "duration" := PyNone ]} PyNone); reflexivity.
Defined.

Lemma trim_video_frame_witness :
  st_fs (snd (trim_video (sample_env 0 true) (req "00:00:05" "00:00:10") sample_other_state))
    !! "/home/u/videos" = Some [("a.mp4", NFile 1)].
Proof.
  rewrite (trim_video_frame (sample_env 0 true) (req "00:00:05" "00:00:10")
             sample_other_state "/home/u/videos"); [reflexivity|reflexivity|].
  vm_compute. discriminate.
Defined.

Lemma retention_small_dir_witness :
  retention "/tmp/video-trimmer" (sample_dir_before 8) = (Ok tt, sample_dir_before 8).
Proof.
  apply (retention_small_dir "/tmp/video-trimmer" (sample_dir_before 8) (sample_listing 8));
    [reflexivity | vm_compute; lia].
Defined.

Lemma retention_only_removes_files_witness :
  exists l',
    retention "/tmp/video-trimmer" sample_dir_state
    = (Ok tt, {| st_fs := <[ "/tmp/video-trimmer" := l' ]> (st_fs sample_dir_state);
                 st_trace := st_trace sample_dir_state |}) /\
    (forall x, In x l' -> In x (sample_listing 16)) /\
    (forall x, In x (sample_listing 16) -> is_file (snd x) = false -> In x l').
Proof.
  apply (retention_only_removes_files "/tmp/video-trimmer" sample_dir_state (sample_listing 16)).
  - reflexivity.
  - apply (bool_decide_unpack _). vm_compute. exact I.
Defined.

Lemma trim_video_success_witness :
  fst (trim_video (sample_env 0 true) (req "00:00:05" "00:00:10") st0)
  = Ok {| fr_path := path_join "/tmp/video-trimmer" "trimmed_video_20261018_120000.mp4";
          fr_media_type := "video/mp4"; fr_filename := "trimmed_video_20261018_120000.mp4" |}
  /\ st_trace (snd (trim_video (sample_env 0 true) (req "00:00:05" "00:00:10") st0))
  = [EvProbe "https://example.com/v";
     EvDownload "https://example.com/v" (path_join "/tmp/tmpabc" "video.%(ext)s");
     EvFfmpeg (path_join "/tmp/tmpabc" "video.mp4") 5 (10 - 5)
              (path_join "/tmp/video-trimmer" "trimmed_video_20261018_120000.mp4")].
Proof.
  apply (trim_video_success (sample_env 0 true) (req "00:00:05" "00:00:10") st0 5 10 0
           ["video.mp4"] "video.mp4").
  - split; [reflexivity|]. split; [reflexivity|]. split; [lia|].
    exists sample_meta. split; reflexivity.
  - vm_compute. discriminate.
  - reflexivity.
  - reflexivity.
  - reflexivity.
Defined.

Lemma trim_video_ok_inv_witness :
  exists s e rc files vf,
    passes_validation (sample_env 0 true) (req "00:00:05" "00:00:10") s e /\
    env_download (sample_env 0 true) "https://example.com/v" = DlDone rc files /\
    List.find (fun f => String.prefix "video." f) files = Some vf /\
    ff_code (env_ffmpeg (sample_env 0 true) (path_join "/tmp/tmpabc" vf) s (e - s)
               (path_join "/tmp/video-trimmer" "trimmed_video_20261018_120000.mp4")) = 0.
Proof.
  apply (trim_video_ok_inv (sample_env 0 true) (req "00:00:05" "00:00:10") st0
           {| fr_path := "/tmp/video-trimmer/trimmed_video_20261018_120000.mp4";
              fr_media_type := "video/mp4";
              fr_filename := "trimmed_video_20261018_120000.mp4" |}).
  vm_compute. reflexivity.
Defined.

Lemma trim_video_response_file_kept_witness :
  exists l', st_fs (snd (trim_video (sample_env 0 true) (req "00:00:05" "00:00:10")
                                    (sample_dir_before 12))) !! "/tmp/video-trimmer" = Some l' /\
             In ("trimmed_video_20261018_120000.mp4", NFile 100) l'.
Proof.
  apply (trim_video_response_file_kept (sample_env 0 true) (req "00:00:05" "00:00:10")
           (sample_dir_before 12) 5 10 0 ["video.mp4"] "video.mp4").
  - split; [reflexivity|]. split; [reflexivity|]. split; [lia|].
    exists sample_meta. split; reflexivity.
  - vm_compute. discriminate.
  - reflexivity.
  - reflexivity.
  - reflexivity.
  - reflexivity.
  - intros l Hl. vm_compute in Hl. injection Hl as <-. split.
    + apply (bool_decide_unpack _). vm_compute. exact I.
    + repeat constructor; simpl; lia.
Defined.
